(** * cce-checkin: barcode check-in logger (checkin.go and its second source file)

    A shallow embedding of the scan and export logic of the program, with
    the parts of the Go runtime and standard library it relies on
    (string indexing and slicing, [strconv.Atoi], [fmt.Sprintf "%d"],
    [regexp], [time], [encoding/csv]) modelled next to it.

    Conventions.
    - Go [string] is [string]; its bytes are [ascii].
    - Go [int] is 64-bit: values are [Z] and arithmetic that can leave
      the range is wrapped with [wrap64].
    - Code that can panic (index or slice out of range) returns [result].
    - A [time.Time] is an instant in nanoseconds since the Unix epoch
      together with the zone offset (seconds east of UTC) it is shown in.
    - The store file is the list of its CSV lines. *)

From Stdlib Require Import ZArith Lia Bool List Ascii String.
From stdpp Require Import base option list gmap strings.
Import ListNotations.

Local Open Scope string_scope.
Local Open Scope list_scope.
Local Open Scope Z_scope.

(** ** Results of code that can panic *)

Inductive result (A : Type) : Type :=
| Ok (a : A)
| Panic.
Arguments Ok {A} a.
Arguments Panic {A}.

Definition rbind {A B} (r : result A) (k : A -> result B) : result B :=
  match r with
  | Ok a => k a
  | Panic => Panic
  end.

Notation "x <-! r ;; k" := (rbind r (fun x => k))
  (at level 100, r at next level, right associativity).

(** ** Go strings and integers *)

Module Go.

Definition max_int : Z := 2 ^ 63 - 1.
Definition min_int : Z := - 2 ^ 63.

(** Two's-complement wrap-around of 64-bit [int] arithmetic. *)
Definition wrap64 (z : Z) : Z := (z + 2 ^ 63) mod 2 ^ 64 - 2 ^ 63.

Definition in_int (z : Z) : bool := (min_int <=? z) && (z <=? max_int).

(** [s[:n]]: panics when [n > len(s)]. *)
Definition slice_to (s : string) (n : nat) : result string :=
  if (n <=? String.length s)%nat then Ok (substring 0 n s) else Panic.

(** [xs[i]] on a slice: panics when out of range. *)
Definition index {A} (xs : list A) (i : nat) : result A :=
  match nth_error xs i with
  | Some x => Ok x
  | None => Panic
  end.

Definition isDigit (c : ascii) : bool :=
  (48 <=? nat_of_ascii c)%nat && (nat_of_ascii c <=? 57)%nat.

Definition digitVal (c : ascii) : Z := Z.of_nat (nat_of_ascii c) - 48.

Definition digitChar (d : Z) : ascii := ascii_of_nat (Z.to_nat (48 + d)).

Definition bytes (s : string) : list ascii := list_ascii_of_string s.

(** Value of a run of decimal digits, most significant first; [None] when
    a byte is not a digit. *)
Fixpoint digitsVal (acc : Z) (s : string) : option Z :=
  match s with
  | EmptyString => Some acc
  | String c rest =>
      if isDigit c then digitsVal (acc * 10 + digitVal c) rest else None
  end.

(** [strconv.Atoi]: optional sign, then one or more decimal digits; the
    value must fit [int], otherwise the call reports an error. *)
Definition Atoi (s : string) : option Z :=
  let '(neg, body) :=
    match s with
    | String "-" rest => (true, rest)
    | String "+" rest => (false, rest)
    | _ => (false, s)
    end in
  match body with
  | EmptyString => None
  | _ =>
      match digitsVal 0 body with
      | Some n =>
          let v := if neg then - n else n in
          if in_int v then Some v else None
      | None => None
      end
  end.

(** Decimal digits of a non-negative number, prepended to [acc]. Twenty
    rounds cover every 64-bit value. *)
Fixpoint utoa (fuel : nat) (n : Z) (acc : string) : string :=
  match fuel with
  | O => acc
  | S f =>
      let acc' := String (digitChar (n mod 10)) acc in
      if n <? 10 then acc' else utoa f (n / 10) acc'
  end.

(** [fmt.Sprintf("%d", n)] *)
Definition itoa (n : Z) : string :=
  if n <? 0 then String "-" (utoa 20 (- n) "") else utoa 20 n "".

(** [regexp.MustCompile(`^\d+$`).MatchString]: the whole text is one or
    more ASCII digits. *)
Definition numRegex_MatchString (s : string) : bool :=
  match s with
  | EmptyString => false
  | _ => forallb isDigit (bytes s)
  end.

End Go.

(** ** The [time] package, as far as the program uses it

    Layouts in use: ["2006-01-02"] (dates given on the command line, the
    current date) and ["2006-01-02T15:04:05-07:00"] (record timestamps). *)

Module GoTime.
Import Go.

Record Time : Type := mkTime {
  unixNano : Z;      (* the instant: nanoseconds since 1970-01-01T00:00:00Z *)
  zoneOffset : Z     (* seconds east of UTC of the zone it is presented in *)
}.

Definition Second : Z := 1000000000.
Definition Hour : Z := 3600 * Second.

(** Comparisons look at the instant only. *)
Definition After (t u : Time) : bool := unixNano u <? unixNano t.
Definition Before (t u : Time) : bool := unixNano t <? unixNano u.
Definition Equal (t u : Time) : bool := unixNano t =? unixNano u.

(** [t.Add(d)], [d] in nanoseconds. *)
Definition Add (t : Time) (d : Z) : Time :=
  mkTime (unixNano t + d) (zoneOffset t).

(** *** Proleptic Gregorian calendar *)

Definition isLeap (year : Z) : bool :=
  (year mod 4 =? 0) && (negb (year mod 100 =? 0) || (year mod 400 =? 0)).

(** [daysBefore[m]]: days of a non-leap year before month [m+1]. *)
Definition daysBefore (m : Z) : Z :=
  nth (Z.to_nat m) [0; 31; 59; 90; 120; 151; 181; 212; 243; 273; 304; 334; 365] 0.

Definition daysIn (month year : Z) : Z :=
  if (month =? 2) && isLeap year then 29
  else daysBefore month - daysBefore (month - 1).

(** Days from 0001-01-01 to the first day of [year]. *)
Definition daysSinceYear1 (year : Z) : Z :=
  let y := year - 1 in
  365 * y + y / 4 - y / 100 + y / 400.

(** Days from 0001-01-01 to 1970-01-01. *)
Definition unixEpochDay : Z := 719162.

(** Day number (from 0001-01-01) of a calendar date. *)
Definition dayOfDate (year month day : Z) : Z :=
  daysSinceYear1 year + daysBefore (month - 1)
  + (if isLeap year && (3 <=? month) then 1 else 0)
  + (day - 1).

(** Year and day within the year of a day number: 400-, 100-, 4- and
    1-year cycles are cut off in turn. *)
Definition yearDay (a : Z) : Z * Z :=
  let n400 := a / 146097 in
  let d := a - 146097 * n400 in
  let n100 := d / 36524 in
  let n100 := n100 - Z.shiftr n100 2 in
  let d := d - 36524 * n100 in
  let n4 := d / 1461 in
  let d := d - 1461 * n4 in
  let n1 := d / 365 in
  let n1 := n1 - Z.shiftr n1 2 in
  let d := d - 365 * n1 in
  (1 + 400 * n400 + 100 * n100 + 4 * n4 + n1, d).

(** Month and day of the month from the day within the year. *)
Definition monthDay (year yday : Z) : Z * Z :=
  if isLeap year && (yday =? 59) then (2, 29)
  else
    let day := if isLeap year && (59 <? yday) then yday - 1 else yday in
    let m := day / 31 in
    let e := daysBefore (m + 1) in
    if e <=? day then (m + 2, day - e + 1)
    else (m + 1, day - daysBefore m + 1).

Record Civil : Type := mkCivil {
  cYear : Z; cMonth : Z; cDay : Z; cHour : Z; cMinute : Z; cSecond : Z
}.

(** Wall-clock reading of [t] in its own zone. *)
Definition civil (t : Time) : Civil :=
  let secs := unixNano t / Second + zoneOffset t in
  let a := secs / 86400 + unixEpochDay in
  let sod := secs mod 86400 in
  let '(year, yday) := yearDay a in
  let '(month, day) := monthDay year yday in
  mkCivil year month day (sod / 3600) (sod mod 3600 / 60) (sod mod 60).

(** [time.Date(..., UTC)] for fields already in range. *)
Definition unixSeconds (year month day hour min sec : Z) : Z :=
  (dayOfDate year month day - unixEpochDay) * 86400
  + hour * 3600 + min * 60 + sec.

(** *** Formatting *)

Fixpoint zeros (n : nat) : string :=
  match n with
  | O => ""
  | S k => String "0" (zeros k)
  end.

(** [appendInt]: sign, then the decimal digits padded with zeros to the
    width. *)
Definition appendInt (x : Z) (width : nat) : string :=
  let ds := utoa 20 (Z.abs x) "" in
  (if x <? 0 then "-" else "")
   +:+ zeros (width - String.length ds) +:+ ds.

(** Layout ["2006-01-02"]. *)
Definition formatDate (t : Time) : string :=
  let c := civil t in
  appendInt (cYear c) 4 +:+ "-" +:+ appendInt (cMonth c) 2 +:+ "-"
   +:+ appendInt (cDay c) 2.

(** Layout element ["-07:00"]. *)
Definition formatZone (offset : Z) : string :=
  let zone := Z.quot offset 60 in
  let sign := if zone <? 0 then "-" else "+" in
  let zone := Z.abs zone in
  sign +:+ appendInt (zone / 60) 2 +:+ ":" +:+ appendInt (zone mod 60) 2.

(** Layout ["2006-01-02T15:04:05-07:00"]. *)
Definition formatStamp (t : Time) : string :=
  let c := civil t in
  formatDate t +:+ "T" +:+ appendInt (cHour c) 2 +:+ ":"
   +:+ appendInt (cMinute c) 2 +:+ ":" +:+ appendInt (cSecond c) 2
   +:+ formatZone (zoneOffset t).

(** *** Parsing *)

(** A literal byte of the layout must be next in the input. *)
Definition lit (c : ascii) (s : string) : option string :=
  match s with
  | String c' rest => if Ascii.eqb c c' then Some rest else None
  | EmptyString => None
  end.

(** [getnum]: a one- or two-digit number; [fixed] demands two digits. *)
Definition getnum (s : string) (fixed : bool) : option (Z * string) :=
  match s with
  | String c0 rest =>
      if isDigit c0 then
        match rest with
        | String c1 rest' =>
            if isDigit c1 then Some (digitVal c0 * 10 + digitVal c1, rest')
            else if fixed then None else Some (digitVal c0, rest)
        | EmptyString => if fixed then None else Some (digitVal c0, rest)
        end
      else None
  | EmptyString => None
  end.

(** Layout element ["2006"]: exactly four digits. *)
Definition getyear (s : string) : option (Z * string) :=
  if (4 <=? String.length s)%nat then
    y ← digitsVal 0 (substring 0 4 s);
    Some (y, substring 4 (String.length s - 4) s)
  else None.

Definition commaOrPeriod (c : ascii) : bool :=
  Ascii.eqb c "." || Ascii.eqb c ",".

(** Length of the leading run of digits. *)
Fixpoint digitRun (s : string) : nat :=
  match s with
  | String c rest => if isDigit c then S (digitRun rest) else O
  | EmptyString => O
  end.

(** A fraction of a second in the input although the layout has none:
    a comma or period followed by digits, of which the first nine count.
    Returns the nanoseconds and the rest of the input. *)
Definition getfraction (s : string) : option (Z * string) :=
  match s with
  | String c rest =>
      if commaOrPeriod c && (1 <=? digitRun rest)%nat then
        let n := digitRun rest in
        let k := Nat.min n 9 in
        ns ← digitsVal 0 (substring 0 k rest);
        Some (ns * 10 ^ Z.of_nat (9 - k),
              substring n (String.length rest - n) rest)
      else Some (0, s)
  | EmptyString => Some (0, s)
  end.

(** Layout element ["-07:00"]: sign, two digits, colon, two digits; hours
    up to 24 and minutes up to 60 are let through. Returns the offset in
    seconds east of UTC. *)
Definition getzone (s : string) : option (Z * string) :=
  match s with
  | String sg (String h1 (String h2 (String co (String m1 (String m2 rest))))) =>
      if Ascii.eqb co ":" then
        '(hr, _) ← getnum (String h1 (String h2 "")) true;
        '(mm, _) ← getnum (String m1 (String m2 "")) true;
        if (24 <? hr) || (60 <? mm) then None
        else
          let off := (hr * 60 + mm) * 60 in
          if Ascii.eqb sg "+" then Some (off, rest)
          else if Ascii.eqb sg "-" then Some (- off, rest)
          else None
      else None
  | _ => None
  end.

(** The date part shared by both layouts: year, month and day as read,
    the month already checked against 1..12. *)
Definition getdate (s : string) : option (Z * Z * Z * string) :=
  '(year, s) ← getyear s;
  s ← lit "-" s;
  '(month, s) ← getnum s true;
  if (month <=? 0) || (12 <? month) then None
  else
    s ← lit "-" s;
    '(day, s) ← getnum s true;
    Some (year, month, day, s).

Definition dayInRange (year month day : Z) : bool :=
  (1 <=? day) && (day <=? daysIn month year).

(** [time.Parse("2006-01-02T15:04:05-07:00", s)]. An error is [None]. *)
Definition Parse (s : string) : option Time :=
  '(year, month, day, s) ← getdate s;
  s ← lit "T" s;
  '(hour, s) ← getnum s false;
  if 24 <=? hour then None
  else
    s ← lit ":" s;
    '(min, s) ← getnum s true;
    if 60 <=? min then None
    else
      s ← lit ":" s;
      '(sec, s) ← getnum s true;
      if 60 <=? sec then None
      else
        '(nsec, s) ← getfraction s;
        '(off, s) ← getzone s;
        match s with
        | EmptyString =>
            if dayInRange year month day then
              Some (mkTime
                      ((unixSeconds year month day hour min sec - off) * Second
                       + nsec)
                      off)
            else None
        | _ => None
        end.

(** A [*time.Location]: for an instant in Unix seconds, the offset in
    force and the bounds [start <= instant < end] of the period it is in
    force for. *)
Record Location : Type := mkLocation {
  lookup : Z -> Z * Z * Z
}.

Definition FixedZone (offset : Z) : Location :=
  mkLocation (fun _ => (offset, min_int, max_int)).

(** [time.Date(year, month, day, 0, 0, 0, 0, loc)]: the offset is looked
    up at the wall-clock reading taken as UTC, and looked up again when
    the corrected instant falls outside that period. *)
Definition DateIn (loc : Location) (year month day : Z) : Time :=
  let unix := unixSeconds year month day 0 0 0 in
  let '(offset, start, stop) := lookup loc unix in
  let offset :=
    if offset =? 0 then 0
    else
      let utc := unix - offset in
      if (utc <? start) || (stop <=? utc) then fst (fst (lookup loc utc))
      else offset in
  mkTime ((unix - offset) * Second) offset.

(** [time.ParseInLocation("2006-01-02", s, loc)]. *)
Definition ParseDateInLocation (loc : Location) (s : string) : option Time :=
  '(year, month, day, s) ← getdate s;
  match s with
  | EmptyString =>
      if dayInRange year month day then Some (DateIn loc year month day)
      else None
  | _ => None
  end.

(** [time.ParseInLocation("2006-01-02T15:04:05-07:00", s, loc)]: the
    input carries its own offset, so the instant does not depend on
    [loc]. *)
Definition ParseInLocation (loc : Location) (s : string) : option Time :=
  Parse s.

End GoTime.

(** ** The [encoding/csv] reader and writer over the store

    A file is kept as the list of its non-empty lines, each one as the
    reader lexes it: either a row of one or more fields, or a line it
    reports a quoting error for. The writer always ends a row with a
    newline, so an appended row is a new line. *)

Module Csv.

Inductive line : Type :=
| Row (first : string) (more : list string)
| Malformed.

Definition fields (first : string) (more : list string) : list string :=
  first :: more.

(** Rows after the first: with [FieldsPerRecord] left at 0 the first
    row fixes the number of fields, and any other number is an error. *)
Fixpoint readRest (expected : nat) (ls : list line)
  : option (list (list string)) :=
  match ls with
  | [] => Some []
  | Malformed :: _ => None
  | Row f more :: rest =>
      if (length (fields f more) =? expected)%nat then
        recs ← readRest expected rest;
        Some (fields f more :: recs)
      else None
  end.

(** [csv.NewReader(file).ReadAll()] from the start of the file: all
    records, or an error ([None]) at the first line in error. *)
Definition ReadAll (ls : list line) : option (list (list string)) :=
  match ls with
  | [] => Some []
  | Malformed :: _ => None
  | Row f more :: rest =>
      recs ← readRest (length (fields f more)) rest;
      Some (fields f more :: recs)
  end.

(** The line [Writer.Write(record)] puts out; a record without fields is
    an empty line, which the reader passes over. *)
Definition lineOf (record : list string) : list line :=
  match record with
  | [] => []
  | f :: more => [Row f more]
  end.

(** [Writer.WriteAll(records)] *)
Definition linesOf (records : list (list string)) : list line :=
  concat (map lineOf records).

End Csv.

(** ** The world the program runs in: files and what it did to them *)

Inductive Msg : Type :=
| Line (text : string)          (* [fmt.Println(text)] *)
| ErrLine (what : string)       (* [fmt.Println(what, err)] *)
| Prompt                        (* [fmt.Print("Barcode ID: ")] *)
| Recorded (record : list string). (* [fmt.Println("Recorded:", record)] *)

Inductive Event : Type :=
| Printed (m : Msg)
| ReadStore (name : string)                     (* a file read from its start *)
| Appended (name : string) (record : list string)
| Created (name : string) (records : list (list string)).

Record World : Type := mkWorld {
  files : gmap string (list Csv.line);
  trace : list Event
}.

(** Computations on the world that may panic. *)
Definition M (A : Type) : Type := World -> result (A * World).

Definition ret {A} (a : A) : M A := fun w => Ok (a, w).

Definition bind {A B} (m : M A) (k : A -> M B) : M B :=
  fun w =>
    match m w with
    | Ok (a, w') => k a w'
    | Panic => Panic
    end.

Notation "x <~ m ;; k" := (bind m (fun x => k))
  (at level 100, m at next level, right associativity).
Notation "m ;;; k" := (bind m (fun _ => k))
  (at level 100, right associativity).

Definition lift {A} (r : result A) : M A :=
  fun w =>
    match r with
    | Ok a => Ok (a, w)
    | Panic => Panic
    end.

Definition emit (e : Event) : M unit :=
  fun w => Ok (tt, mkWorld (files w) (trace w ++ [e])).

Definition println (m : Msg) : M unit := emit (Printed m).

(** Content of a file; a file that does not exist has none. *)
Definition content (name : string) (w : World) : list Csv.line :=
  default [] (files w !! name).

(** [file.Seek(0, 0)] followed by [csv.NewReader(file).ReadAll()]. *)
Definition readAll (name : string) : M (option (list (list string))) :=
  fun w =>
    Ok (Csv.ReadAll (content name w),
        mkWorld (files w) (trace w ++ [ReadStore name])).

(** [writer.Write(record); writer.Flush()] on a file opened with
    [O_APPEND]. *)
Definition append (name : string) (record : list string) : M unit :=
  fun w =>
    Ok (tt,
        mkWorld (<[name := content name w ++ Csv.lineOf record]> (files w))
                (trace w ++ [Appended name record])).

(** [os.OpenFile(name, O_APPEND|O_CREATE|..., 0644)]: an absent file is
    created empty. *)
Definition openOrCreate (name : string) : M unit :=
  fun w =>
    Ok (tt,
        match files w !! name with
        | Some _ => w
        | None => mkWorld (<[name := []]> (files w)) (trace w)
        end).

(** [os.Create(name)] and [WriteAll]: the file is replaced. *)
Definition create (name : string) (records : list (list string)) : M unit :=
  fun w =>
    Ok (tt,
        mkWorld (<[name := Csv.linesOf records]> (files w))
                (trace w ++ [Created name records])).

Definition exists_file (name : string) : M bool :=
  fun w => Ok (bool_decide (is_Some (files w !! name)), w).

(** What a computation returns, and the world it leaves. *)
Definition valueOf {A} (r : result (A * World)) : result A :=
  match r with
  | Ok (a, _) => Ok a
  | Panic => Panic
  end.

Definition worldOf {A} (r : result (A * World)) : World :=
  match r with
  | Ok (_, w) => w
  | Panic => mkWorld ∅ []
  end.

(** ** What both files share: input, flags, help text, export *)

Module Common.
Import Go GoTime.

(** One pass through the scan loop as the outside world supplies it: the
    token [fmt.Scanln] delivers and the clock readings of the two
    [time.Now()] calls (in [checkRecentDuplicate], then in the loop). *)
Record Input : Type := mkInput {
  barcodeID : string;
  nowCheck : Time;
  now : Time
}.

Record Flags : Type := mkFlags {
  scanMode : bool;
  exportMode : bool;
  startDate : string;
  endDate : string;
  helpFlag : bool;
  nFlag : nat                   (* [flag.NFlag()]: how many flags were set *)
}.

Definition helpText : list string :=
  [ "Barcode Scanner Program";
    "Usage:";
    "  -scan                  : Start barcode scanning mode.";
    "  -export                : Export records within a date or date range.";
    "  -start=<YYYY-MM-DD>    : Specify the start date for export (required if using export mode).";
    "  -end=<YYYY-MM-DD>      : Specify the end date for export (optional, for a date range).";
    "  -help                  : Display this help message.";
    "";
    "Examples:";
    "  ./checkin -scan";
    "  ./checkin -export -start=2024-10-25";
    "  ./checkin -export -start=2024-10-24 -end=2024-10-26";
    "  ./checkin -help" ].

Fixpoint printAll (ls : list string) : M unit :=
  match ls with
  | [] => ret tt
  | l :: rest => println (Line l) ;;; printAll rest
  end.

Definition displayHelp : M unit := printAll helpText.

(** The end of the export window: one second before the midnight that
    follows the end date (the start date when no end date is given). *)
Definition windowEnd (loc : Location) (start : Time) (endDate : string)
  : option Time :=
  if String.eqb endDate "" then
    Some (Add (Add start (24 * Hour)) (- Second))
  else
    e ← ParseDateInLocation loc endDate;
    Some (Add (Add e (24 * Hour)) (- Second)).

(** The test a record's time has to pass. *)
Definition inWindow (start stop recordTime : Time) : bool :=
  (Equal recordTime start || After recordTime start)
  && Before recordTime stop.

(** The filter loop of [runExportMode]. *)
Fixpoint filterRecords (loc : Location) (start stop : Time)
    (records : list (list string)) (filteredRecords : list (list string))
  : M (list (list string)) :=
  match records with
  | [] => ret filteredRecords
  | record :: rest =>
      ts <~ lift (index record 0) ;;
      match ParseInLocation loc ts with
      | None =>
          println (ErrLine "Error parsing timestamp:") ;;;
          filterRecords loc start stop rest filteredRecords
      | Some recordTime =>
          if inWindow start stop recordTime then
            filterRecords loc start stop rest (filteredRecords ++ [record])
          else filterRecords loc start stop rest filteredRecords
      end
  end.

Definition exportName (startDate endDate : string) (count : Z) : string :=
  if String.eqb endDate "" then
    "export_" +:+ startDate +:+ "_" +:+ itoa count +:+ "_records.csv"
  else
    "export_" +:+ startDate +:+ "_to_" +:+ endDate +:+ "_"
      +:+ itoa count +:+ "_records.csv".

(** [runExportMode], for the store file name [store] the file opens. *)
Definition runExportModeOn (store : string) (loc : Location)
    (startDate endDate : string) : M unit :=
  found <~ exists_file store ;;
  if negb found then println (ErrLine "Error opening file:")
  else
    read <~ readAll store ;;
    match read with
    | None => println (ErrLine "Error reading CSV:")
    | Some records =>
        match ParseDateInLocation loc startDate with
        | None => println (ErrLine "Error parsing start date:")
        | Some start =>
            match windowEnd loc start endDate with
            | None => println (ErrLine "Error parsing end date:")
            | Some stop =>
                filteredRecords <~ filterRecords loc start stop records [] ;;
                if (length filteredRecords =? 0)%nat then
                  println (Line "No records found for the specified date range.")
                else
                  let count := Z.of_nat (length filteredRecords) in
                  let filename := exportName startDate endDate count in
                  create filename filteredRecords ;;;
                  println (Line ("Exported " +:+ itoa count
                                 +:+ " records to " +:+ filename))
            end
        end
    end.

(** [main], given the two modes. *)
Definition mainWith (runScanMode : M unit)
    (runExportMode : string -> string -> M unit) (fl : Flags) : M unit :=
  if helpFlag fl || (nFlag fl =? 0)%nat then displayHelp
  else if scanMode fl then runScanMode
  else if exportMode fl then
    if String.eqb (startDate fl) "" then
      println (Line "Error: Start date is required for export mode.")
    else runExportMode (startDate fl) (endDate fl)
  else println (Line "Error: Please specify either -scan or -export.").

End Common.

(** ** checkin.go *)

Module Checkin.
Import Go GoTime Common.

(** The file [runScanMode] opens. *)
Definition scanFile : string := "scans.csv".

(** The file [runExportMode] opens. *)
Definition exportFile : string := "scanned_barcodes.csv".

(** The loop of [getDailyCount]. *)
Fixpoint maxCountOf (currentDate : string) (records : list (list string))
    (maxCount : Z) : result Z :=
  match records with
  | [] => Ok maxCount
  | record :: rest =>
      ts <-! index record 0 ;;
      recordDate <-! slice_to ts 10 ;;
      if String.eqb recordDate currentDate && (2 <? length record)%nat then
        seq <-! index record 2 ;;
        match Atoi seq with
        | Some count =>
            maxCountOf currentDate rest
              (if maxCount <? count then count else maxCount)
        | None => maxCountOf currentDate rest maxCount
        end
      else maxCountOf currentDate rest maxCount
  end.

Definition getDailyCount (file : string) (currentDate : string) : M Z :=
  read <~ readAll file ;;
  match read with
  | None => println (ErrLine "Error reading CSV:") ;;; ret 0
  | Some records => lift (maxCountOf currentDate records 0)
  end.

(** The loop of [checkRecentDuplicate]. *)
Fixpoint recentIn (barcodeID : string) (twoHoursAgo : Time)
    (records : list (list string)) : M bool :=
  match records with
  | [] => ret false
  | record :: rest =>
      ts <~ lift (index record 0) ;;
      match Parse ts with
      | None =>
          println (ErrLine "Error parsing timestamp:") ;;;
          recentIn barcodeID twoHoursAgo rest
      | Some recordTime =>
          id <~ lift (index record 1) ;;
          if String.eqb id barcodeID && After recordTime twoHoursAgo
          then ret true
          else recentIn barcodeID twoHoursAgo rest
      end
  end.

(** [checkRecentDuplicate]; [now] is the reading of its [time.Now()]. *)
Definition checkRecentDuplicate (file : string) (barcodeID : string)
    (now : Time) : M bool :=
  read <~ readAll file ;;
  match read with
  | None => println (ErrLine "Error reading CSV:") ;;; ret false
  | Some records =>
      let twoHoursAgo := Add now (-2 * Hour) in
      recentIn barcodeID twoHoursAgo records
  end.

(** The variables of [runScanMode] that live across iterations. *)
Record LoopState : Type := mkLoop {
  currentDate : string;
  dailyCount : Z
}.

(** One iteration of the loop once the input is known not to be
    ["exit"]. *)
Definition scanIteration (file : string) (st : LoopState) (inp : Input)
  : M LoopState :=
  if negb (numRegex_MatchString (barcodeID inp)) then
    println (Line "Invalid input. Please enter a numeric barcode ID.") ;;;
    ret st
  else
    dup <~ checkRecentDuplicate file (barcodeID inp) (nowCheck inp) ;;
    if dup then
      println (Line "Duplicate entry within 2 hours detected. Skipping entry.") ;;;
      ret st
    else
      let today := formatDate (now inp) in
      let st :=
        if negb (String.eqb today (currentDate st)) then mkLoop today 0
        else st in
      let st := mkLoop (currentDate st) (wrap64 (dailyCount st + 1)) in
      let timestamp := formatStamp (now inp) in
      let record := [timestamp; barcodeID inp; itoa (dailyCount st)] in
      append file record ;;;
      println (Recorded record) ;;;
      ret st.

(** The loop over the inputs supplied so far; it ends at ["exit"], and
    is left waiting when the inputs run out. *)
Fixpoint scanLoop (file : string) (st : LoopState) (inputs : list Input)
  : M LoopState :=
  match inputs with
  | [] => ret st
  | inp :: rest =>
      println Prompt ;;;
      if String.eqb (barcodeID inp) "exit" then
        println (Line "Exiting scan mode.") ;;; ret st
      else
        st' <~ scanIteration file st inp ;;
        scanLoop file st' rest
  end.

(** The part of [runScanMode] before the loop; [start] is the reading of
    the first [time.Now()]. *)
Definition scanInit (file : string) (start : Time) : M LoopState :=
  openOrCreate file ;;;
  println (Line "Barcode scanner ready. Type 'exit' to quit.") ;;;
  let currentDate := formatDate start in
  dailyCount <~ getDailyCount file currentDate ;;
  ret (mkLoop currentDate dailyCount).

Definition runScanMode (start : Time) (inputs : list Input) : M unit :=
  st <~ scanInit scanFile start ;;
  scanLoop scanFile st inputs ;;;
  ret tt.

Definition runExportMode (loc : Location) (startDate endDate : string)
  : M unit :=
  runExportModeOn exportFile loc startDate endDate.

Definition main (start : Time) (inputs : list Input) (loc : Location)
    (fl : Flags) : M unit :=
  mainWith (runScanMode start inputs) (runExportMode loc) fl.

End Checkin.

(** ** The second source file (part_000): the program without duplicate
    check and daily count *)

Module Variant.
Import Go GoTime Common.

Definition scanFile : string := "scans.csv".
Definition exportFile : string := "scans.csv".

Definition scanIteration (file : string) (inp : Input) : M unit :=
  if negb (numRegex_MatchString (barcodeID inp)) then
    println (Line "Invalid input. Please enter a numeric barcode ID.")
  else
    let timestamp := formatStamp (now inp) in
    let record := [timestamp; barcodeID inp] in
    append file record ;;;
    println (Recorded record).

Fixpoint scanLoop (file : string) (inputs : list Input) : M unit :=
  match inputs with
  | [] => ret tt
  | inp :: rest =>
      println Prompt ;;;
      if String.eqb (barcodeID inp) "exit" then
        println (Line "Exiting scan mode.")
      else
        scanIteration file inp ;;;
        scanLoop file rest
  end.

Definition runScanMode (inputs : list Input) : M unit :=
  openOrCreate scanFile ;;;
  println (Line "Barcode scanner ready. Type 'exit' to quit.") ;;;
  scanLoop scanFile inputs.

Definition runExportMode (loc : Location) (startDate endDate : string)
  : M unit :=
  runExportModeOn exportFile loc startDate endDate.

Definition main (inputs : list Input) (loc : Location) (fl : Flags)
  : M unit :=
  mainWith (runScanMode inputs) (runExportMode loc) fl.

End Variant.

(** * Notions the statements are phrased in *)

(** ** Export *)

Module ExportSpec.
Import Go GoTime Common.

(** Whether the filter loop keeps a record. *)
Definition matches (start stop : Time) (record : list string) : bool :=
  match record with
  | ts :: _ =>
      match Parse ts with
      | Some recordTime => inWindow start stop recordTime
      | None => false
      end
  | [] => false
  end.

(** The complaints the filter loop prints on its way. *)
Definition complaints (records : list (list string)) : list Event :=
  flat_map
    (fun record =>
       match record with
       | ts :: _ =>
           match Parse ts with
           | Some _ => []
           | None => [Printed (ErrLine "Error parsing timestamp:")]
           end
       | [] => []
       end) records.

(** The outcome of an export that gets as far as the filter. *)
Definition exported (store startDate endDate : string)
    (records kept : list (list string)) (w : World) : World :=
  match kept with
  | [] =>
      mkWorld (files w)
        (trace w ++ ReadStore store :: complaints records
           ++ [Printed (Line "No records found for the specified date range.")])
  | _ =>
      let count := Z.of_nat (length kept) in
      let filename := exportName startDate endDate count in
      mkWorld (<[filename := Csv.linesOf kept]> (files w))
        (trace w ++ ReadStore store :: complaints records
           ++ [Created filename kept;
               Printed (Line ("Exported " +:+ itoa count
                              +:+ " records to " +:+ filename))])
  end.

End ExportSpec.

(** ** Timestamps *)

Module StampSpec.
Import Go GoTime.

(** A clock reading of the kind met in practice: the year has four
    digits, the zone offset is a whole number of minutes and less than a
    day. *)
Definition ordinary (t : Time) : bool :=
  (0 <=? cYear (civil t)) && (cYear (civil t) <=? 9999)
  && (-86400 <? zoneOffset t) && (zoneOffset t <? 86400)
  && (zoneOffset t mod 60 =? 0).


(** Two and four decimal digits. *)
Definition two (x : Z) : string :=
  String (digitChar (x / 10)) (String (digitChar (x mod 10)) "").

Definition four (x : Z) : string :=
  String (digitChar (x / 1000))
    (String (digitChar (x / 100 mod 10)) (two (x mod 100))).

(** The shape YYYY-MM-DDTHH:MM:SS±HH:MM. *)
Definition isStamp (s : string) : bool :=
  match bytes s with
  | [y1; y2; y3; y4; d1; m1; m2; d2; a1; a2; t; h1; h2; c1; n1; n2; c2;
     s1; s2; sg; z1; z2; c3; z3; z4] =>
      forallb isDigit
        [y1; y2; y3; y4; m1; m2; a1; a2; h1; h2; n1; n2; s1; s2;
         z1; z2; z3; z4]
      && Ascii.eqb d1 "-" && Ascii.eqb d2 "-" && Ascii.eqb t "T"
      && Ascii.eqb c1 ":" && Ascii.eqb c2 ":" && Ascii.eqb c3 ":"
      && (Ascii.eqb sg "+" || Ascii.eqb sg "-")
  | _ => false
  end.

Definition isDigitValue (d : Z) : bool :=
  isDigit (digitChar d) && (digitVal (digitChar d) =? d).

Definition twoOK (x : Z) : bool := String.eqb (appendInt x 2) (two x).
Definition fourOK (x : Z) : bool := String.eqb (appendInt x 4) (four x).

End StampSpec.

(** ** Scanning *)

Module ScanSpec.
Import Go GoTime Common StampSpec.

(** A record with the given barcode and a time strictly after the
    cutoff. *)
Definition isRecent (barcodeID : string) (cutoff : Time)
    (record : list string) : bool :=
  match record with
  | ts :: id :: _ =>
      match Parse ts with
      | Some recordTime => String.eqb id barcodeID && After recordTime cutoff
      | None => false
      end
  | _ => false
  end.

(** Some stored record is a recent duplicate of the barcode. *)
Definition recentDuplicate (barcodeID : string) (nowCheck : Time)
    (records : list (list string)) : bool :=
  existsb (isRecent barcodeID (Add nowCheck (-2 * Hour))) records.




(** The record an accepted scan appends, and the loop state after it. *)
Definition nextState (st : Checkin.LoopState) (now : Time) : Checkin.LoopState :=
  let today := formatDate now in
  let count :=
    if String.eqb today (Checkin.currentDate st) then Checkin.dailyCount st
    else 0 in
  Checkin.mkLoop today (wrap64 (count + 1)).

Definition newRecord (st : Checkin.LoopState) (inp : Input) : list string :=
  [ formatStamp (now inp); barcodeID inp;
    itoa (Checkin.dailyCount (nextState st (now inp))) ].

(** The first field is at least ten bytes long. *)
Definition hasDate (record : list string) : bool :=
  match record with
  | ts :: _ => (10 <=? String.length ts)%nat
  | [] => false
  end.

(** Some stored record carries the barcode and a time strictly later
    than two hours before [nowCheck]. *)
Definition hasRecent (barcodeID : string) (nowCheck : Time)
    (records : list (list string)) : Prop :=
  exists ts rest recordTime,
    In (ts :: barcodeID :: rest) records
    /\ Parse ts = Some recordTime
    /\ unixNano nowCheck - 2 * Hour < unixNano recordTime.




(** A stored record as the scan loop leaves them: three fields, a first
    field long enough to carry a date, that date not after [limit], and a
    sequence with room for [room] more scans. *)
Definition kept (limit : string) (room : Z) (record : list string) : bool :=
  match record with
  | [ts; _; seq] =>
      (10 <=? String.length ts)%nat
      && String.leb (substring 0 10 ts) limit
      && match Atoi seq with
         | Some count => count + room <? max_int
         | None => true
         end
  | _ => false
  end.





(** The start of [runScanMode] followed by the loop over [inputs]. *)
Definition scanSession (file : string) (start : Time) (inputs : list Input)
  : M Checkin.LoopState :=
  st <~ Checkin.scanInit file start ;;
  Checkin.scanLoop file st inputs.

(** The message of a rejected scan. *)
Definition duplicateNotice : Event :=
  Printed (Line "Duplicate entry within 2 hours detected. Skipping entry.").

(** An error message. *)
Definition isComplaint (e : Event) : Prop :=
  match e with
  | Printed (ErrLine _) => True
  | _ => False
  end.

(** The store reads of a trace. *)
Definition reads (tr : list Event) : list Event :=
  List.filter (fun e => match e with ReadStore _ => true | _ => false end) tr.



End ScanSpec.

(** ** Checking a property on a range of numbers by running it *)

Module Range.

(** [P] holds on the [n] numbers from [z] on. *)
Fixpoint checkFrom (P : Z -> bool) (n : nat) (z : Z) : bool :=
  match n with
  | O => true
  | S k => P z && checkFrom P k (z + 1)
  end.

End Range.

(** ** The calendar *)

Module CalendarSpec.
Import GoTime.

(** What is expected of the date computed for day [r] of a 400-year
    cycle: a month and a day of that month, and the day number back. *)
Definition cycleOK (r : Z) : bool :=
  let '(year, yday) := yearDay r in
  let '(month, day) := monthDay year yday in
  (1 <=? year) && (year <=? 400)
  && (1 <=? month) && (month <=? 12)
  && (1 <=? day) && (day <=? daysIn month year)
  && (dayOfDate year month day =? r).

End CalendarSpec.

(** ** Sample data for the concrete runs *)

Module Sample.
Import Go GoTime Common.

(** A zone seven hours west of UTC all year. *)
Definition zone : Location := FixedZone (-25200).

(** A clock reading given by its timestamp. *)
Definition at_ (stamp : string) : Time := default (mkTime 0 0) (Parse stamp).

Definition noFiles : World := mkWorld ∅ [].

Definition storeOf (name : string) (ls : list Csv.line) : World :=
  mkWorld {[ name := ls ]} [].

(** One scan: a barcode and the time on the clock, the same for both
    readings of the pass. *)
Definition scan (barcode stamp : string) : Input :=
  mkInput barcode (at_ stamp) (at_ stamp).

(** Two records at the very end of a day. *)
Definition lateRows : list Csv.line :=
  [ Csv.Row "2024-10-26T23:59:58-07:00" ["123"; "1"];
    Csv.Row "2024-10-26T23:59:59-07:00" ["456"; "2"] ].

(** Records of four days, one of them with a timestamp that does not
    parse. *)
Definition fourDays : list Csv.line :=
  [ Csv.Row "2024-10-23T09:00:00-07:00" ["11"; "1"];
    Csv.Row "2024-10-24T00:00:00-07:00" ["22"; "1"];
    Csv.Row "garbled" ["33"; "2"];
    Csv.Row "2024-10-25T12:30:00-07:00" ["44"; "1"];
    Csv.Row "2024-10-27T08:00:00-07:00" ["55"; "1"] ].

Definition fourDayRecords : list (list string) :=
  [ ["2024-10-23T09:00:00-07:00"; "11"; "1"];
    ["2024-10-24T00:00:00-07:00"; "22"; "1"];
    ["garbled"; "33"; "2"];
    ["2024-10-25T12:30:00-07:00"; "44"; "1"];
    ["2024-10-27T08:00:00-07:00"; "55"; "1"] ].

(** An evening of scanning, with a record of the day before. *)
Definition evening : list Csv.line :=
  [ Csv.Row "2024-10-25T18:00:00-07:00" ["111"; "7"];
    Csv.Row "2024-10-26T20:00:00-07:00" ["111"; "1"];
    Csv.Row "2024-10-26T20:30:00-07:00" ["222"; "2"] ].






(** A record written shortly before midnight. *)
Definition beforeMidnight : list Csv.line :=
  [ Csv.Row "2024-10-26T23:30:00-07:00" ["123"; "9"] ].






End Sample.

(** ** Sessions and what they leave behind *)

Module SessionSpec.
Import Go GoTime Common.

(** The inputs the scan loop gets to see: those before the first
    ["exit"]. *)
Fixpoint untilExit (inputs : list Input) : list Input :=
  match inputs with
  | [] => []
  | inp :: rest =>
      if String.eqb (barcodeID inp) "exit" then [] else inp :: untilExit rest
  end.

(** The input is a digit-only barcode. *)
Definition numeric (inp : Input) : bool := numRegex_MatchString (barcodeID inp).

(** The row the second source file writes for an input. *)
Definition variantRow (inp : Input) : Csv.line :=
  Csv.Row (formatStamp (now inp)) [barcodeID inp].

(** The outcome of a computation with [pre] printed and done before it. *)
Definition later {A} (pre : list Event) (r : result (A * World))
  : result (A * World) :=
  match r with
  | Ok (a, w) => Ok (a, mkWorld (files w) (pre ++ trace w))
  | Panic => Panic
  end.

(** A computation that never looks at what has happened so far. *)
Definition traceBlind {A} (m : M A) : Prop :=
  forall fs pre tr, m (mkWorld fs (pre ++ tr)) = later pre (m (mkWorld fs tr)).





(** The row checkin.go writes for an input and a sequence. *)
Definition checkinRow (inp : Input) (seq : string) : Csv.line :=
  Csv.Row (formatStamp (now inp)) [barcodeID inp; seq].


End SessionSpec.

(** ** What an export leaves behind *)

Module OutcomeSpec.
Import Go GoTime Common ExportSpec.

(** The records an export selects; none when it gives up before the
    filter: no store file, a store that does not read as CSV, a date that
    does not parse. *)
Definition selection (store : string) (loc : Location)
    (startDate endDate : string) (w : World) : list (list string) :=
  match files w !! store with
  | None => []
  | Some ls =>
      match Csv.ReadAll ls with
      | None => []
      | Some records =>
          match ParseDateInLocation loc startDate with
          | None => []
          | Some start =>
              match windowEnd loc start endDate with
              | None => []
              | Some stop => List.filter (matches start stop) records
              end
          end
      end
  end.

(** The files an export leaves: one more, or one replaced, when records
    were selected. *)
Definition filesAfterExport (store : string) (loc : Location)
    (startDate endDate : string) (w : World) : gmap string (list Csv.line) :=
  match selection store loc startDate endDate w with
  | [] => files w
  | kept =>
      <[exportName startDate endDate (Z.of_nat (length kept))
          := Csv.linesOf kept]> (files w)
  end.

End OutcomeSpec.

(** * Properties *)

(** ** Range checks *)

Module RangeFacts.
Import Range.

Lemma checkFrom_sound P n : forall z,
  checkFrom P n z = true ->
  forall i, z <= i < z + Z.of_nat n -> P i = true.
Proof.
  induction n as [|k IH]; intros z H i Hi; [lia|].
  cbn [checkFrom] in H. apply andb_true_iff in H as [Hz Hk].
  destruct (Z.eq_dec i z) as [->|Hne]; [exact Hz|].
  apply (IH (z + 1) Hk). lia.
Qed.

End RangeFacts.

(** ** The calendar *)

Module CalendarFacts.
Import GoTime CalendarSpec.

Lemma cycle_checked : Range.checkFrom cycleOK (Z.to_nat 146097) 0 = true.
Proof. vm_compute. reflexivity. Qed.

Lemma cycleOK_all r : 0 <= r < 146097 -> cycleOK r = true.
Proof.
  intros Hr. apply (RangeFacts.checkFrom_sound _ _ _ cycle_checked). lia.
Qed.

Lemma isLeap_cycle y q : isLeap (y + 400 * q) = isLeap y.
Proof.
  unfold isLeap.
  replace (y + 400 * q) with (y + (100 * q) * 4) at 1 by lia.
  replace (y + 400 * q) with (y + (4 * q) * 100) at 1 by lia.
  replace (y + 400 * q) with (y + q * 400) by lia.
  rewrite !Z.mod_add by lia. reflexivity.
Qed.

Lemma daysSinceYear1_cycle y q :
  daysSinceYear1 (y + 400 * q) = daysSinceYear1 y + 146097 * q.
Proof.
  unfold daysSinceYear1.
  replace ((y + 400 * q - 1) / 4) with ((y - 1) / 4 + 100 * q)
    by (replace (y + 400 * q - 1) with (y - 1 + (100 * q) * 4) by lia;
        rewrite Z.div_add by lia; reflexivity).
  replace ((y + 400 * q - 1) / 100) with ((y - 1) / 100 + 4 * q)
    by (replace (y + 400 * q - 1) with (y - 1 + (4 * q) * 100) by lia;
        rewrite Z.div_add by lia; reflexivity).
  replace ((y + 400 * q - 1) / 400) with ((y - 1) / 400 + q)
    by (replace (y + 400 * q - 1) with (y - 1 + q * 400) by lia;
        rewrite Z.div_add by lia; reflexivity).
  lia.
Qed.

Lemma dayOfDate_cycle y q m d :
  dayOfDate (y + 400 * q) m d = dayOfDate y m d + 146097 * q.
Proof.
  unfold dayOfDate. rewrite isLeap_cycle, daysSinceYear1_cycle. lia.
Qed.

Lemma daysIn_cycle m y q : daysIn m (y + 400 * q) = daysIn m y.
Proof. unfold daysIn. rewrite isLeap_cycle. reflexivity. Qed.

Lemma monthDay_cycle y q yd : monthDay (y + 400 * q) yd = monthDay y yd.
Proof. unfold monthDay. rewrite isLeap_cycle. reflexivity. Qed.

(** The year of day [a] is the year of its day within the 400-year
    cycle, moved by the cycles before. *)
Lemma yearDay_cycle a :
  yearDay a = (fst (yearDay (a mod 146097)) + 400 * (a / 146097),
               snd (yearDay (a mod 146097))).
Proof.
  assert (Hr : 0 <= a mod 146097 < 146097) by (apply Z.mod_pos_bound; lia).
  unfold yearDay.
  rewrite (Z.div_small (a mod 146097)) by exact Hr.
  replace (a - 146097 * (a / 146097)) with (a mod 146097)
    by (rewrite Z.mod_eq by lia; reflexivity).
  replace (a mod 146097 - 146097 * 0) with (a mod 146097) by lia.
  cbn [fst snd]. f_equal. lia.
Qed.

(** The date computed for a day number is a date of the calendar, and
    it is the date of that day. *)
Lemma date_of_day a :
  let '(year, yday) := yearDay a in
  let '(month, day) := monthDay year yday in
  1 <= month <= 12 /\ 1 <= day <= daysIn month year
  /\ dayOfDate year month day = a.
Proof.
  assert (Hr : 0 <= a mod 146097 < 146097) by (apply Z.mod_pos_bound; lia).
  pose proof (cycleOK_all _ Hr) as Hok. unfold cycleOK in Hok.
  rewrite (yearDay_cycle a).
  destruct (yearDay (a mod 146097)) as [y yd]. cbn [fst snd].
  rewrite monthDay_cycle.
  destruct (monthDay y yd) as [m d].
  rewrite daysIn_cycle, dayOfDate_cycle.
  rewrite !andb_true_iff, !Z.leb_le, Z.eqb_eq in Hok.
  pose proof (Z.div_mod a 146097). lia.
Qed.

End CalendarFacts.

(** ** Formatting a clock reading and reading it back *)

Module StampFacts.
Import Go GoTime StampSpec CalendarFacts.

Lemma append_cons x (a b : string) : String x a +:+ b = String x (a +:+ b).
Proof. reflexivity. Qed.

Lemma append_nil (b : string) : "" +:+ b = b.
Proof. reflexivity. Qed.

Lemma append_assoc (a b c : string) : (a +:+ b) +:+ c = a +:+ b +:+ c.
Proof.
  induction a as [|x a IH]; [reflexivity|].
  rewrite !append_cons. f_equal. exact IH.
Qed.

Ltac sapp := rewrite ?append_assoc, ?append_cons, ?append_nil.


Lemma substring_none s : substring 0 0 s = "".
Proof. destruct s; reflexivity. Qed.

Lemma digits_checked : Range.checkFrom isDigitValue 10 0 = true.
Proof. vm_compute. reflexivity. Qed.

Lemma digit_ok d : 0 <= d <= 9 ->
  isDigit (digitChar d) = true /\ digitVal (digitChar d) = d.
Proof.
  intros Hd.
  pose proof (RangeFacts.checkFrom_sound _ _ _ digits_checked d) as H.
  unfold isDigitValue in H. rewrite andb_true_iff, Z.eqb_eq in H.
  apply H. lia.
Qed.

Lemma two_checked : Range.checkFrom twoOK 100 0 = true.
Proof. vm_compute. reflexivity. Qed.

Lemma four_checked : Range.checkFrom fourOK (Z.to_nat 10000) 0 = true.
Proof. vm_compute. reflexivity. Qed.

Lemma appendInt_two x : 0 <= x < 100 -> appendInt x 2 = two x.
Proof.
  intros Hx. apply String.eqb_eq.
  apply (RangeFacts.checkFrom_sound _ _ _ two_checked x). lia.
Qed.

Lemma appendInt_four x : 0 <= x < 10000 -> appendInt x 4 = four x.
Proof.
  intros Hx. apply String.eqb_eq.
  apply (RangeFacts.checkFrom_sound _ _ _ four_checked x). lia.
Qed.



Lemma daysIn_le m y : 1 <= m <= 12 -> daysIn m y <= 31.
Proof.
  intros Hm. unfold daysIn.
  assert (H : m = 1 \/ m = 2 \/ m = 3 \/ m = 4 \/ m = 5 \/ m = 6 \/ m = 7
              \/ m = 8 \/ m = 9 \/ m = 10 \/ m = 11 \/ m = 12) by lia.
  destruct (isLeap y);
    repeat (destruct H as [->|H]; [vm_compute; discriminate|]);
    subst; vm_compute; discriminate.
Qed.

Lemma civil_ok t :
  let c := civil t in
  1 <= cMonth c <= 12
  /\ 1 <= cDay c <= daysIn (cMonth c) (cYear c)
  /\ 0 <= cHour c < 24 /\ 0 <= cMinute c < 60 /\ 0 <= cSecond c < 60
  /\ unixSeconds (cYear c) (cMonth c) (cDay c) (cHour c) (cMinute c) (cSecond c)
     = unixNano t / Second + zoneOffset t.
Proof.
  unfold civil.
  set (secs := unixNano t / Second + zoneOffset t).
  pose proof (date_of_day (secs / 86400 + unixEpochDay)) as Hd.
  destruct (yearDay (secs / 86400 + unixEpochDay)) as [year yday].
  destruct (monthDay year yday) as [month day].
  cbn [cYear cMonth cDay cHour cMinute cSecond].
  destruct Hd as (Hm & Hday & Hback).
  unfold unixSeconds. rewrite Hback.
  clearbody secs. clear Hback.
  repeat split; try assumption; try lia; Z.div_mod_to_equations; lia.
Qed.

Lemma formatZone_parts off :
  -86400 < off < 86400 ->
  let zone := Z.abs (Z.quot off 60) in
  formatZone off
  = (if Z.quot off 60 <? 0 then "-" else "+")
      +:+ two (zone / 60) +:+ ":" +:+ two (zone mod 60)
  /\ 0 <= zone / 60 < 24 /\ 0 <= zone mod 60 < 60.
Proof.
  intros Hoff zone.
  assert (Hz : 0 <= zone < 1440)
    by (unfold zone; Z.quot_rem_to_equations; lia).
  assert (Hh : 0 <= zone / 60 < 24)
    by (split; [apply Z.div_pos | apply Z.div_lt_upper_bound]; lia).
  assert (Hm : 0 <= zone mod 60 < 60) by (apply Z.mod_pos_bound; lia).
  split; [|split; assumption].
  unfold formatZone. fold zone.
  rewrite !appendInt_two by lia. reflexivity.
Qed.

Lemma formatDate_parts t :
  ordinary t = true ->
  formatDate t
  = four (cYear (civil t)) +:+ "-" +:+ two (cMonth (civil t)) +:+ "-"
      +:+ two (cDay (civil t)).
Proof.
  unfold ordinary. rewrite !andb_true_iff, !Z.leb_le.
  intros ((((Hy0 & Hy1) & _) & _) & _).
  destruct (civil_ok t) as (Hm & Hd & _).
  pose proof (daysIn_le _ (cYear (civil t)) Hm).
  unfold formatDate.
  rewrite appendInt_four, !appendInt_two by lia. reflexivity.
Qed.

Lemma formatStamp_parts t :
  ordinary t = true ->
  let c := civil t in
  let zone := Z.abs (Z.quot (zoneOffset t) 60) in
  formatStamp t
  = four (cYear c) +:+ "-" +:+ two (cMonth c) +:+ "-" +:+ two (cDay c)
      +:+ "T" +:+ two (cHour c) +:+ ":" +:+ two (cMinute c) +:+ ":"
      +:+ two (cSecond c)
      +:+ (if Z.quot (zoneOffset t) 60 <? 0 then "-" else "+")
      +:+ two (zone / 60) +:+ ":" +:+ two (zone mod 60).
Proof.
  intros Ho c zone. unfold formatStamp. rewrite (formatDate_parts t Ho).
  fold c.
  pose proof Ho as Ho'. unfold ordinary in Ho'.
  rewrite !andb_true_iff, !Z.ltb_lt in Ho'.
  destruct Ho' as (((_ & Ho1) & Ho2) & _).
  destruct (formatZone_parts (zoneOffset t)) as (-> & _); [lia|].
  destruct (civil_ok t) as (_ & _ & Hh & Hmi & Hs & _). fold c in Hh, Hmi, Hs.
  rewrite !appendInt_two by lia.
  rewrite !append_assoc. reflexivity.
Qed.






Ltac digits :=
  repeat match goal with
    | |- context [isDigit (digitChar ?d)] =>
        rewrite (proj1 (digit_ok d ltac:(Z.div_mod_to_equations; lia)))
    end.

Lemma formatStamp_shape t :
  ordinary t = true ->
  isStamp (formatStamp t) = true
  /\ substring 0 10 (formatStamp t) = formatDate t
  /\ String.length (formatStamp t) = 25%nat.
Proof.
  intros Ho. rewrite (formatStamp_parts t Ho), (formatDate_parts t Ho).
  pose proof Ho as Ho'. unfold ordinary in Ho'.
  rewrite !andb_true_iff, !Z.leb_le, !Z.ltb_lt, Z.eqb_eq in Ho'.
  destruct Ho' as ((((Hy0 & Hy1) & Ho1) & Ho2) & Ho3).
  destruct (civil_ok t) as (Hm & Hd & Hh & Hmi & Hs & _).
  destruct (formatZone_parts (zoneOffset t)) as (_ & Hzh & Hzm); [lia|].
  set (c := civil t) in *.
  set (zone := Z.abs (Z.quot (zoneOffset t) 60)) in *.
  pose proof (daysIn_le _ (cYear c) Hm) as Hd31.
  clearbody c zone.
  unfold four, two.
  destruct (Z.quot (zoneOffset t) 60 <? 0); sapp;
    (split; [|split; reflexivity]);
    unfold isStamp; cbn [bytes list_ascii_of_string forallb];
    digits; reflexivity.
Qed.

Lemma utoa_value f : forall n acc,
  0 <= n < 10 ^ Z.of_nat f ->
  digitsVal 0 (utoa f n acc) = digitsVal n acc.
Proof.
  induction f as [|f IH]; intros n acc Hn.
  - cbn [utoa]. change (10 ^ Z.of_nat 0) with 1 in Hn. replace n with 0 by lia.
    reflexivity.
  - cbn [utoa].
    assert (Hd : 0 <= n mod 10 <= 9) by (pose proof (Z.mod_pos_bound n 10); lia).
    destruct (digit_ok _ Hd) as [D V].
    destruct (Z.ltb_spec n 10) as [Hlt|Hge].
    + cbn [digitsVal]. rewrite D, V. rewrite Z.mod_small by lia. reflexivity.
    + rewrite IH.
      * cbn [digitsVal]. rewrite D, V. f_equal.
        pose proof (Z.div_mod n 10). lia.
      * rewrite Nat2Z.inj_succ, Z.pow_succ_r in Hn by lia.
        split; [apply Z.div_pos; lia | apply Z.div_lt_upper_bound; lia].
Qed.

Lemma utoa_digits f : forall n acc,
  0 <= n -> forallb isDigit (bytes acc) = true ->
  forallb isDigit (bytes (utoa f n acc)) = true.
Proof.
  induction f as [|f IH]; intros n acc Hn Hacc; [exact Hacc|].
  cbn [utoa].
  assert (Hd : 0 <= n mod 10 <= 9) by (pose proof (Z.mod_pos_bound n 10); lia).
  destruct (digit_ok _ Hd) as [D V].
  assert (Hacc' : forallb isDigit (bytes (String (digitChar (n mod 10)) acc)) = true)
    by (cbn [bytes list_ascii_of_string forallb]; rewrite D; exact Hacc).
  destruct (n <? 10); [exact Hacc'|].
  apply IH; [apply Z.div_pos; lia | exact Hacc'].
Qed.

Lemma utoa_nonempty f n acc : exists c rest, utoa (S f) n acc = String c rest.
Proof.
  revert n acc. induction f as [|f IH]; intros n acc.
  - cbn [utoa]. destruct (n <? 10); eauto.
  - change (utoa (S (S f)) n acc)
      with (let acc' := String (digitChar (n mod 10)) acc in
            if n <? 10 then acc' else utoa (S f) (n / 10) acc').
    cbn zeta. destruct (n <? 10); [eauto | apply IH].
Qed.

Lemma Atoi_unsigned c rest :
  isDigit c = true ->
  Atoi (String c rest)
  = match digitsVal 0 (String c rest) with
    | Some n => if in_int n then Some n else None
    | None => None
    end.
Proof.
  destruct c as [[] [] [] [] [] [] [] []]; intros H; try discriminate H;
    reflexivity.
Qed.

Lemma Atoi_itoa n : in_int n = true -> Atoi (itoa n) = Some n.
Proof.
  unfold in_int, min_int, max_int. rewrite andb_true_iff, !Z.leb_le.
  intros [Hlo Hhi]. unfold itoa.
  assert (Hpow : 2 ^ 63 < 10 ^ Z.of_nat 20) by (vm_compute; reflexivity).
  destruct (Z.ltb_spec n 0) as [Hneg|Hpos].
  - destruct (utoa_nonempty 19 (- n) "") as (c & rest & E).
    pose proof (utoa_value 20 (- n) "" ltac:(lia)) as V. rewrite E in V.
    unfold Atoi. rewrite E, V. cbn [digitsVal].
    replace (- - n) with n by lia.
    unfold in_int, min_int, max_int.
    destruct (Z.leb_spec (- 2 ^ 63) n); [|lia].
    destruct (Z.leb_spec n (2 ^ 63 - 1)); [|lia]. reflexivity.
  - destruct (utoa_nonempty 19 n "") as (c & rest & E).
    pose proof (utoa_value 20 n "" ltac:(lia)) as V.
    pose proof (utoa_digits 20 n "" Hpos eq_refl) as D.
    rewrite E in V, D. rewrite E.
    cbn [bytes list_ascii_of_string forallb] in D.
    apply andb_true_iff in D as [Dc _].
    rewrite (Atoi_unsigned c rest Dc), V. cbn [digitsVal].
    unfold in_int, min_int, max_int.
    destruct (Z.leb_spec (- 2 ^ 63) n); [|lia].
    destruct (Z.leb_spec n (2 ^ 63 - 1)); [|lia]. reflexivity.
Qed.

Lemma itoa_digits n : 0 <= n -> numRegex_MatchString (itoa n) = true.
Proof.
  intros Hn. unfold itoa. destruct (Z.ltb_spec n 0); [lia|].
  destruct (utoa_nonempty 19 n "") as (c & rest & E).
  pose proof (utoa_digits 20 n "" Hn eq_refl) as D. rewrite E in *.
  exact D.
Qed.

End StampFacts.

(** ** The CSV reader *)

Module CsvFacts.
Import Csv.

Lemma readRest_length n ls recs :
  readRest n ls = Some recs -> Forall (fun r => length r = n) recs.
Proof.
  revert recs. induction ls as [|l ls IH]; intros recs H; cbn [readRest] in H.
  - inversion H. constructor.
  - destruct l as [f more|]; [|discriminate].
    destruct (Nat.eqb_spec (length (fields f more)) n) as [E|]; [|discriminate].
    destruct (readRest n ls) as [recs'|] eqn:R; simpl in H; [|discriminate].
    inversion H; subst. constructor; [reflexivity | apply IH; reflexivity].
Qed.

(** Every record of a successful read has as many fields as the first. *)
Lemma ReadAll_same_length ls recs :
  ReadAll ls = Some recs ->
  exists n, (1 <= n)%nat /\ Forall (fun r => length r = n) recs.
Proof.
  destruct ls as [|[f more|] ls]; simpl; intros H.
  - inversion H. exists 1%nat. split; [lia | constructor].
  - destruct (readRest _ ls) as [recs'|] eqn:R; simpl in H; [|discriminate].
    inversion H; subst. exists (S (length more)). split; [lia|].
    constructor; [reflexivity | eapply readRest_length; eassumption].
  - discriminate.
Qed.

Lemma ReadAll_nonempty ls recs :
  ReadAll ls = Some recs -> Forall (fun r => r <> []) recs.
Proof.
  intros H. destruct (ReadAll_same_length _ _ H) as (n & Hn & Hall).
  eapply Forall_impl; [exact Hall|].
  intros r Hr. simpl in Hr. destruct r; simpl in *; [lia | discriminate].
Qed.

Lemma readRest_lines n records :
  Forall (fun r => length r = n) records -> (1 <= n)%nat ->
  readRest n (linesOf records) = Some records.
Proof.
  intros Hall Hn. induction Hall as [|r records Hr _ IH]; [reflexivity|].
  destruct r as [|f more]; [simpl in Hr; lia|].
  change (linesOf ((f :: more) :: records))
    with (Row f more :: linesOf records).
  cbn [readRest]. unfold fields. rewrite Hr, Nat.eqb_refl.
  rewrite IH. reflexivity.
Qed.

(** Rows of one width written out are read back as they were. *)
Lemma ReadAll_lines n records :
  Forall (fun r => length r = n) records -> (1 <= n)%nat ->
  ReadAll (linesOf records) = Some records.
Proof.
  intros Hall Hn. destruct records as [|r records]; [reflexivity|].
  inversion Hall as [|? ? Hr Hrest]; subst.
  destruct r as [|f more]; [simpl in Hn; lia|].
  change (linesOf ((f :: more) :: records))
    with (Row f more :: linesOf records).
  cbn [ReadAll]. rewrite (readRest_lines (length (fields f more)) records);
    [reflexivity | exact Hrest | simpl; lia].
Qed.



End CsvFacts.

(** ** Running computations *)

Ltac run :=
  unfold bind, ret, lift, println, emit, readAll, append, create,
    openOrCreate, exists_file, rbind; cbn [fst snd files trace].

Lemma app_assoc3 {A} (a b c : list A) : (a ++ b) ++ c = a ++ b ++ c.
Proof. symmetry. apply List.app_assoc. Qed.

Lemma content_lookup name w ls :
  files w !! name = Some ls -> content name w = ls.
Proof. unfold content. intros ->. reflexivity. Qed.

(** ** Export *)

Module ExportFacts.
Import Go GoTime Common ExportSpec.

(** What the window test admits: instants from [start] on and strictly
    before [stop]. *)
Lemma inWindow_spec start stop t :
  inWindow start stop t = true <->
  unixNano start <= unixNano t /\ unixNano t < unixNano stop.
Proof.
  unfold inWindow, Equal, After, Before.
  rewrite andb_true_iff, orb_true_iff, Z.eqb_eq, !Z.ltb_lt. lia.
Qed.

Lemma filterRecords_run loc start stop records :
  Forall (fun r => r <> []) records ->
  forall acc w,
    filterRecords loc start stop records acc w
    = Ok (acc ++ List.filter (matches start stop) records,
          mkWorld (files w) (trace w ++ complaints records)).
Proof.
  induction 1 as [|record records Hne _ IH]; intros acc w.
  - cbn. run. rewrite !app_nil_r. destruct w; reflexivity.
  - destruct record as [|ts more]; [congruence|].
    cbn [filterRecords index nth_error]. run.
    unfold ParseInLocation. cbn [List.filter matches complaints flat_map].
    destruct (Parse ts) as [recordTime|] eqn:P.
    + destruct (inWindow start stop recordTime).
      * rewrite IH. rewrite app_assoc3. reflexivity.
      * rewrite IH. reflexivity.
    + rewrite IH. cbn [files trace]. rewrite app_assoc3. reflexivity.
Qed.

Lemma runExportModeOn_run store loc startDate endDate w ls records start stop :
  files w !! store = Some ls ->
  Csv.ReadAll ls = Some records ->
  ParseDateInLocation loc startDate = Some start ->
  windowEnd loc start endDate = Some stop ->
  runExportModeOn store loc startDate endDate w
  = Ok (tt, exported store startDate endDate records
              (List.filter (matches start stop) records) w).
Proof.
  intros Hf Hr Hs He. unfold runExportModeOn. run.
  rewrite Hf. rewrite bool_decide_true by eauto. cbn [negb].
  rewrite (content_lookup _ _ _ Hf), Hr, Hs, He.
  rewrite filterRecords_run by (eapply CsvFacts.ReadAll_nonempty; eauto).
  cbn [app files trace].
  destruct (List.filter (matches start stop) records) as [|r kept] eqn:K.
  - cbn. rewrite <- !List.app_assoc. reflexivity.
  - cbn [length Nat.eqb exported]. cbn [files trace].
    rewrite <- !List.app_assoc. reflexivity.
Qed.

Lemma filter_sublist {A} (p : A -> bool) (l : list A) :
  sublist (List.filter p l) l.
Proof.
  induction l as [|x l IH]; cbn; [constructor|].
  destruct (p x); [apply sublist_skip | apply sublist_cons]; exact IH.
Qed.

End ExportFacts.


(** ** The two lookups and one pass of the scan loop *)

Module ScanFacts.
Import Go GoTime Common StampSpec ScanSpec ExportSpec StampFacts CsvFacts ExportFacts.

(** *** The two lookups on a store that reads *)

Lemma recentIn_run barcodeID cutoff records :
  Forall (fun r => (2 <= length r)%nat) records ->
  forall w, exists evs,
    Checkin.recentIn barcodeID cutoff records w
    = Ok (existsb (isRecent barcodeID cutoff) records,
          mkWorld (files w) (trace w ++ evs))
    /\ Forall isComplaint evs.
Proof.
  induction 1 as [|record records Hlen _ IH]; intros w.
  - exists []. cbn. run. rewrite app_nil_r. destruct w. split; [reflexivity|constructor].
  - destruct record as [|ts [|id more]]; [simpl in Hlen; lia ..|].
    cbn [Checkin.recentIn index nth_error existsb isRecent]. run.
    destruct (Parse ts) as [recordTime|].
    + destruct (String.eqb id barcodeID && After recordTime cutoff).
      * exists []. rewrite app_nil_r. destruct w. split; [reflexivity|constructor].
      * cbn [orb]. apply IH.
    + cbn [orb].
      destruct (IH (mkWorld (files w)
                      (trace w ++ [Printed (ErrLine "Error parsing timestamp:")])))
        as (evs & -> & Hevs).
      exists (Printed (ErrLine "Error parsing timestamp:") :: evs).
      cbn [files trace]. rewrite app_assoc3. split; [reflexivity|].
      constructor; [exact I | exact Hevs].
Qed.

(** The duplicate check on a store that reads as CSV with at least two
    fields to a row. *)
Lemma checkRecentDuplicate_run file barcodeID nowCheck w records :
  Csv.ReadAll (content file w) = Some records ->
  Forall (fun r => (2 <= length r)%nat) records ->
  exists evs,
    Checkin.checkRecentDuplicate file barcodeID nowCheck w
    = Ok (recentDuplicate barcodeID nowCheck records,
          mkWorld (files w) (trace w ++ ReadStore file :: evs))
    /\ Forall isComplaint evs.
Proof.
  intros Hr Hlen. unfold Checkin.checkRecentDuplicate. run. rewrite Hr.
  destruct (recentIn_run barcodeID (Add nowCheck (-2 * Hour)) records Hlen
              (mkWorld (files w) (trace w ++ [ReadStore file])))
    as (evs & -> & Hevs).
  exists evs. cbn [files trace]. rewrite app_assoc3. split; [reflexivity|exact Hevs].
Qed.






(** *** One pass of the loop on a store that reads *)

(** One pass with a digit-only barcode over a readable store: rejected
    when a recent duplicate is stored, otherwise one record appended. *)
Lemma scanIteration_run file st inp w records :
  numRegex_MatchString (barcodeID inp) = true ->
  Csv.ReadAll (content file w) = Some records ->
  Forall (fun r => (2 <= length r)%nat) records ->
  exists evs,
    Forall isComplaint evs
    /\ Checkin.scanIteration file st inp w
       = Ok (if recentDuplicate (barcodeID inp) (nowCheck inp) records
             then
               (st,
                mkWorld (files w)
                  (trace w ++ ReadStore file :: evs
                     ++ [Printed (Line "Duplicate entry within 2 hours detected. Skipping entry.")]))
             else
               (nextState st (now inp),
                mkWorld
                  (<[file := content file w
                             ++ Csv.lineOf (newRecord st inp)]> (files w))
                  (trace w ++ ReadStore file :: evs
                     ++ [Appended file (newRecord st inp);
                         Printed (Recorded (newRecord st inp))]))).
Proof.
  intros Hnum Hr Hlen. unfold Checkin.scanIteration. rewrite Hnum. cbn [negb].
  destruct (checkRecentDuplicate_run file (barcodeID inp) (nowCheck inp) w
              records Hr Hlen) as (evs & Hrun & Hevs).
  exists evs. split; [exact Hevs|].
  unfold bind at 1. rewrite Hrun.
  destruct (recentDuplicate (barcodeID inp) (nowCheck inp) records).
  - run. rewrite !app_assoc3. reflexivity.
  - run. unfold content. cbn [files trace].
    unfold newRecord, nextState.
    destruct (String.eqb (formatDate (now inp)) (Checkin.currentDate st)) eqn:E;
      cbn [negb Checkin.currentDate Checkin.dailyCount].
    + apply String.eqb_eq in E. rewrite <- E.
      rewrite !app_assoc3. reflexivity.
    + rewrite !app_assoc3. reflexivity.
Qed.

Lemma recentDuplicate_spec barcodeID nowCheck records :
  recentDuplicate barcodeID nowCheck records = true
  <-> hasRecent barcodeID nowCheck records.
Proof.
  unfold recentDuplicate, hasRecent. rewrite existsb_exists. split.
  - intros (r & Hin & Hr). destruct r as [|ts [|id rest]]; try discriminate.
    cbn [isRecent] in Hr. destruct (Parse ts) as [t|] eqn:P; [|discriminate].
    apply andb_true_iff in Hr as [Hid Hafter].
    apply String.eqb_eq in Hid. subst id.
    exists ts, rest, t. split; [exact Hin|]. split; [exact P|].
    unfold After, Add in Hafter. cbn [unixNano] in Hafter.
    apply Z.ltb_lt in Hafter. lia.
  - intros (ts & rest & t & Hin & P & Hlt).
    exists (ts :: barcodeID :: rest). split; [exact Hin|].
    cbn [isRecent]. rewrite P, String.eqb_refl. cbn [andb].
    unfold After, Add. cbn [unixNano]. apply Z.ltb_lt. lia.
Qed.

Lemma complaint_not_append evs file r :
  Forall isComplaint evs -> ~ In (Appended file r) evs.
Proof.
  intros Hall Hin. rewrite List.Forall_forall in Hall.
  exact (Hall _ Hin).
Qed.


Lemma complaint_not_read evs : Forall isComplaint evs -> reads evs = [].
Proof.
  induction 1 as [|e evs He _ IH]; [reflexivity|].
  destruct e as [[]| | |]; try contradiction. exact IH.
Qed.

Lemma content_insert name ls fs tr :
  content name (mkWorld (<[name := ls]> fs) tr) = ls.
Proof. unfold content. cbn [files]. rewrite lookup_insert_eq. reflexivity. Qed.

(** *** The counter and the store during a session *)

Lemma wrap64_small z : min_int <= z <= max_int -> wrap64 z = z.
Proof.
  unfold wrap64, min_int, max_int. intros Hz.
  rewrite Z.mod_small by lia. lia.
Qed.















Lemma content_openOrCreate file name w :
  match openOrCreate file w with
  | Ok (_, w') => content name w' = content name w /\ trace w' = trace w
  | Panic => False
  end.
Proof.
  unfold openOrCreate. destruct (files w !! file) eqn:E; [split; reflexivity|].
  split; [|reflexivity]. unfold content. cbn [files].
  destruct (decide (file = name)) as [->|Hne].
  - rewrite lookup_insert_eq, E. reflexivity.
  - rewrite lookup_insert_ne by exact Hne. reflexivity.
Qed.






(** *** Two scans of one barcode *)



Lemma content_files name w tr :
  content name (mkWorld (files w) tr) = content name w.
Proof. reflexivity. Qed.



Lemma three_two (records : list (list string)) :
  Forall (fun r => length r = 3%nat) records ->
  Forall (fun r => (2 <= length r)%nat) records.
Proof.
  intros H. eapply Forall_impl; [exact H|]. intros r Hr. simpl in *. lia.
Qed.

(** *** Files other than the store *)

Lemma Ok_inv {A} (a a' : A) (w w' : World) :
  Ok (a, w) = Ok (a', w') -> a = a' /\ w = w'.
Proof. intros H. inversion H. split; reflexivity. Qed.

Lemma recentIn_files b cutoff records : forall w v w',
  Checkin.recentIn b cutoff records w = Ok (v, w') -> files w' = files w.
Proof.
  induction records as [|r records IH]; intros w v w' H.
  - cbn in H. apply Ok_inv in H as [_ <-]. reflexivity.
  - cbn [Checkin.recentIn] in H. unfold bind at 1, lift in H.
    destruct (index r 0) as [ts|]; [|discriminate].
    destruct (Parse ts) as [t|].
    + unfold bind at 1, lift in H.
      destruct (index r 1) as [id|]; [|discriminate].
      destruct (String.eqb id b && After t cutoff).
      * apply Ok_inv in H as [_ <-]. reflexivity.
      * apply (IH _ _ _ H).
    + unfold bind at 1, println, emit in H. apply IH in H. exact H.
Qed.

Lemma checkRecentDuplicate_files file b nowCheck w v w' :
  Checkin.checkRecentDuplicate file b nowCheck w = Ok (v, w') ->
  files w' = files w.
Proof.
  unfold Checkin.checkRecentDuplicate. unfold bind at 1, readAll.
  destruct (Csv.ReadAll (content file w)) as [records|].
  - intros H. apply recentIn_files in H. exact H.
  - run. intros H. apply Ok_inv in H as [_ <-]. reflexivity.
Qed.

Lemma getDailyCount_files file date w v w' :
  Checkin.getDailyCount file date w = Ok (v, w') -> files w' = files w.
Proof.
  unfold Checkin.getDailyCount. unfold bind at 1, readAll.
  destruct (Csv.ReadAll (content file w)) as [records|].
  - unfold lift. destruct (Checkin.maxCountOf date records 0); [|discriminate].
    intros H. apply Ok_inv in H as [_ <-]. reflexivity.
  - run. intros H. apply Ok_inv in H as [_ <-]. reflexivity.
Qed.

(** One pass of the loop leaves every file but the store as it was. *)
Lemma scanIteration_others file st inp w st' w' name :
  name <> file ->
  Checkin.scanIteration file st inp w = Ok (st', w') ->
  files w' !! name = files w !! name.
Proof.
  intros Hne. unfold Checkin.scanIteration.
  destruct (numRegex_MatchString (barcodeID inp)); cbn [negb].
  2:{ run. intros H. apply Ok_inv in H as [_ <-]. reflexivity. }
  unfold bind at 1.
  destruct (Checkin.checkRecentDuplicate file (barcodeID inp) (nowCheck inp) w)
    as [[dup w1]|] eqn:E; [|discriminate].
  apply checkRecentDuplicate_files in E.
  destruct dup.
  - run. intros H. apply Ok_inv in H as [_ <-]. cbn [files]. rewrite E. reflexivity.
  - run. intros H. apply Ok_inv in H as [_ <-]. cbn [files].
    rewrite lookup_insert_ne by (intros Heq; apply Hne; symmetry; exact Heq).
    rewrite E. reflexivity.
Qed.

Lemma scanLoop_others file name : name <> file ->
  forall inputs st w st' w',
    Checkin.scanLoop file st inputs w = Ok (st', w') ->
    files w' !! name = files w !! name.
Proof.
  intros Hne. induction inputs as [|inp inputs IH]; intros st w st' w' H.
  - cbn in H. apply Ok_inv in H as [_ <-]. reflexivity.
  - cbn [Checkin.scanLoop] in H. unfold bind at 1, println, emit in H.
    destruct (String.eqb (barcodeID inp) "exit").
    + run. apply Ok_inv in H as [_ <-]. reflexivity.
    + unfold bind at 1 in H.
      destruct (Checkin.scanIteration file st inp _) as [[st1 w1]|] eqn:E;
        [|discriminate].
      apply (scanIteration_others _ _ _ _ _ _ name Hne) in E.
      apply IH in H. rewrite H, E. reflexivity.
Qed.

Lemma scanInit_others file name start w st w' :
  name <> file ->
  Checkin.scanInit file start w = Ok (st, w') ->
  files w' !! name = files w !! name.
Proof.
  intros Hne. unfold Checkin.scanInit. unfold bind at 1.
  pose proof (content_openOrCreate file name w) as Ho.
  destruct (openOrCreate file w) as [[[] w1]|] eqn:O; [|contradiction].
  assert (Hw1 : files w1 !! name = files w !! name).
  { unfold openOrCreate in O. destruct (files w !! file).
    - apply Ok_inv in O as [_ <-]. reflexivity.
    - apply Ok_inv in O as [_ <-]. cbn [files].
      rewrite lookup_insert_ne by (intros Heq; apply Hne; symmetry; exact Heq).
      reflexivity. }
  unfold bind at 1, println, emit. unfold bind at 1.
  destruct (Checkin.getDailyCount _ _ _) as [[c w2]|] eqn:E; [|discriminate].
  apply getDailyCount_files in E. cbn [files] in E.
  unfold ret. intros H. apply Ok_inv in H as [_ <-]. rewrite E. exact Hw1.
Qed.

(** Scan mode of checkin.go never touches a file other than its
    store. *)
Lemma runScanMode_others name start inputs w u w' :
  name <> Checkin.scanFile ->
  Checkin.runScanMode start inputs w = Ok (u, w') ->
  files w' !! name = files w !! name.
Proof.
  intros Hne. unfold Checkin.runScanMode. unfold bind at 1.
  destruct (Checkin.scanInit _ _ w) as [[st0 w0]|] eqn:I; [|discriminate].
  apply (scanInit_others _ name) in I; [|exact Hne].
  unfold bind at 1.
  destruct (Checkin.scanLoop _ _ _ w0) as [[st' w3]|] eqn:L; [|discriminate].
  apply (scanLoop_others _ name Hne) in L.
  unfold ret. intros H. apply Ok_inv in H as [_ <-].
  rewrite L. exact I.
Qed.

(** *** Records the lookups pass over *)








(** *** The lookups and one pass, whatever the store holds *)

Lemma recentIn_events b cutoff records : forall w v w',
  Checkin.recentIn b cutoff records w = Ok (v, w') ->
  exists evs,
    w' = mkWorld (files w) (trace w ++ evs) /\ Forall isComplaint evs.
Proof.
  induction records as [|r records IH]; intros w v w' H.
  - cbn in H. apply Ok_inv in H as [_ <-]. exists [].
    rewrite app_nil_r. destruct w. split; [reflexivity|constructor].
  - cbn [Checkin.recentIn] in H. unfold bind at 1, lift in H.
    destruct (index r 0) as [ts|]; [|discriminate].
    destruct (Parse ts) as [t|].
    + unfold bind at 1, lift in H.
      destruct (index r 1) as [id|]; [|discriminate].
      destruct (String.eqb id b && After t cutoff).
      * apply Ok_inv in H as [_ <-]. exists [].
        rewrite app_nil_r. destruct w. split; [reflexivity|constructor].
      * apply (IH _ _ _ H).
    + unfold bind at 1, println, emit in H.
      apply IH in H as (evs & -> & Hevs). cbn [files trace].
      exists (Printed (ErrLine "Error parsing timestamp:") :: evs).
      rewrite app_assoc3. split; [reflexivity|].
      constructor; [exact I | exact Hevs].
Qed.

(** Whatever the store holds, the duplicate check reads it once and
    changes no file. *)
Lemma checkRecentDuplicate_events file b checkTime w v w' :
  Checkin.checkRecentDuplicate file b checkTime w = Ok (v, w') ->
  exists evs,
    w' = mkWorld (files w) (trace w ++ ReadStore file :: evs)
    /\ Forall isComplaint evs.
Proof.
  unfold Checkin.checkRecentDuplicate. unfold bind at 1, readAll.
  destruct (Csv.ReadAll (content file w)) as [records|].
  - intros H. apply recentIn_events in H as (evs & -> & Hevs).
    cbn [files trace]. exists evs. rewrite app_assoc3.
    split; [reflexivity | exact Hevs].
  - run. intros H. apply Ok_inv in H as [_ <-].
    exists [Printed (ErrLine "Error reading CSV:")]. rewrite app_assoc3.
    split; [reflexivity|]. constructor; [exact I | constructor].
Qed.

(** A pass of the loop that comes back, whatever the store holds: the
    input is turned away, or the scan is a duplicate, or one record is
    appended. *)
Lemma scanIteration_pass file st inp w st' w' :
  Checkin.scanIteration file st inp w = Ok (st', w') ->
  (numRegex_MatchString (barcodeID inp) = false
   /\ st' = st
   /\ w' = mkWorld (files w)
             (trace w ++ [Printed (Line "Invalid input. Please enter a numeric barcode ID.")]))
  \/ (numRegex_MatchString (barcodeID inp) = true
      /\ exists evs,
           Forall isComplaint evs
           /\ ((st' = st
                /\ w' = mkWorld (files w)
                          (trace w ++ ReadStore file :: evs ++ [duplicateNotice]))
               \/ (st' = nextState st (now inp)
                   /\ w' = mkWorld
                             (<[file := content file w
                                        ++ Csv.lineOf (newRecord st inp)]> (files w))
                             (trace w ++ ReadStore file :: evs
                                ++ [Appended file (newRecord st inp);
                                    Printed (Recorded (newRecord st inp))])))).
Proof.
  unfold Checkin.scanIteration.
  destruct (numRegex_MatchString (barcodeID inp)); cbn [negb].
  2:{ run. intros H. apply Ok_inv in H as [<- <-]. left. auto. }
  intros H. right. split; [reflexivity|]. unfold bind at 1 in H.
  destruct (Checkin.checkRecentDuplicate file (barcodeID inp) (nowCheck inp) w)
    as [[dup w1]|] eqn:E; [|discriminate].
  apply checkRecentDuplicate_events in E as (evs & -> & Hevs).
  exists evs. split; [exact Hevs|]. destruct dup.
  - left. revert H. run. intros H. apply Ok_inv in H as [<- <-].
    rewrite !app_assoc3. split; reflexivity.
  - right. revert H. run. intros H. apply Ok_inv in H as [<- <-].
    unfold content. cbn [files trace]. unfold newRecord, nextState.
    destruct (String.eqb (formatDate (now inp)) (Checkin.currentDate st)) eqn:D;
      cbn [negb Checkin.currentDate Checkin.dailyCount].
    + apply String.eqb_eq in D. rewrite <- D. rewrite !app_assoc3.
      split; reflexivity.
    + rewrite !app_assoc3. split; reflexivity.
Qed.

Lemma getDailyCount_content file date w v :
  content file v = content file w ->
  valueOf (Checkin.getDailyCount file date v)
  = valueOf (Checkin.getDailyCount file date w).
Proof.
  intros Hc. unfold Checkin.getDailyCount. run. rewrite Hc.
  destruct (Csv.ReadAll (content file w)) as [records|]; [|reflexivity].
  destruct (Checkin.maxCountOf date records 0); reflexivity.
Qed.

(** Whatever the store holds, the daily count reads it once and changes
    no file. *)
Lemma getDailyCount_events file date w v w' :
  Checkin.getDailyCount file date w = Ok (v, w') ->
  exists evs,
    w' = mkWorld (files w) (trace w ++ ReadStore file :: evs)
    /\ Forall isComplaint evs.
Proof.
  unfold Checkin.getDailyCount. unfold bind at 1, readAll.
  destruct (Csv.ReadAll (content file w)) as [records|].
  - unfold lift. destruct (Checkin.maxCountOf date records 0); [|discriminate].
    intros H. apply Ok_inv in H as [_ <-]. exists [].
    split; [reflexivity|constructor].
  - run. intros H. apply Ok_inv in H as [_ <-].
    exists [Printed (ErrLine "Error reading CSV:")]. rewrite app_assoc3.
    split; [reflexivity|]. constructor; [exact I | constructor].
Qed.

(** The start of scan mode, whatever the store holds: the counter is
    what the daily count gives for the date of the start, read once. *)
Lemma scanInit_pass file start w st0 w0 :
  Checkin.scanInit file start w = Ok (st0, w0) ->
  Checkin.currentDate st0 = formatDate start
  /\ valueOf (Checkin.getDailyCount file (formatDate start) w)
     = Ok (Checkin.dailyCount st0)
  /\ reads (trace w0) = reads (trace w) ++ [ReadStore file].
Proof.
  unfold Checkin.scanInit. unfold bind at 1.
  pose proof (content_openOrCreate file file w) as Ho.
  destruct (openOrCreate file w) as [[[] w1]|]; [|contradiction].
  destruct Ho as (Hc & Ht).
  unfold bind at 1, println, emit. unfold bind at 1.
  set (w2 := mkWorld (files w1)
               (trace w1 ++ [Printed (Line "Barcode scanner ready. Type 'exit' to quit.")])).
  destruct (Checkin.getDailyCount file (formatDate start) w2) as [[c w3]|] eqn:E;
    [|discriminate].
  unfold ret. intros H. apply Ok_inv in H as [<- <-].
  cbn [Checkin.currentDate Checkin.dailyCount].
  split; [reflexivity|]. split.
  - rewrite <- (getDailyCount_content file (formatDate start) w w2) by exact Hc.
    rewrite E. reflexivity.
  - apply getDailyCount_events in E as (evs & -> & Hevs).
    cbn [trace w2]. rewrite Ht. unfold reads.
    rewrite !List.filter_app. cbn [List.filter]. fold (reads evs).
    rewrite (complaint_not_read _ Hevs), !app_nil_r. reflexivity.
Qed.

(** *** A store that reads, whatever its rows *)






(** *** When the lookups panic *)

(** The loop of [getDailyCount] panics exactly when some first field is
    shorter than the ten bytes it cuts off. *)
Lemma maxCountOf_panics date records :
  Forall (fun r => r <> []) records ->
  forall acc,
    Checkin.maxCountOf date records acc = Panic
    <-> forallb hasDate records = false.
Proof.
  induction 1 as [|r records Hne _ IH]; intros acc.
  - cbn. split; discriminate.
  - destruct r as [|ts more]; [congruence|].
    cbn [Checkin.maxCountOf forallb hasDate index nth_error rbind].
    unfold slice_to. destruct (10 <=? String.length ts)%nat; cbn [rbind andb].
    2:{ split; reflexivity. }
    destruct (String.eqb (substring 0 10 ts) date && (2 <? length (ts :: more))%nat)
      eqn:E; [|apply IH].
    apply andb_true_iff in E as [_ E]. apply Nat.ltb_lt in E.
    destruct more as [|id [|seq more]]; [cbn in E; lia ..|].
    cbn [index nth_error rbind]. destruct (Atoi seq); apply IH.
Qed.











End ScanFacts.

(** * The claims *)

Section Claims.
Import Go GoTime Common StampSpec ScanSpec ExportSpec.
Import CalendarFacts StampFacts CsvFacts ExportFacts ScanFacts.

(** ** C1: the end of the export window *)

(** C1 (the code departs from the claim). The claim has every record of
    the end day exported, the one stamped 23:59:59 included. Run on a
    store with a record at 23:59:58 and one at 23:59:59 of the end date,
    the export of either source file writes the first and leaves the
    second out: the window ends at 23:59:59 and the test against its end
    is strict. *)
Theorem export_leaves_out_the_last_second :
  let w := Sample.storeOf Checkin.exportFile Sample.lateRows in
  let v := Sample.storeOf Variant.exportFile Sample.lateRows in
  Csv.ReadAll Sample.lateRows
  = Some [ ["2024-10-26T23:59:58-07:00"; "123"; "1"];
           ["2024-10-26T23:59:59-07:00"; "456"; "2"] ]
  /\ trace (worldOf (Checkin.runExportMode Sample.zone "2024-10-24" "2024-10-26" w))
     = [ ReadStore Checkin.exportFile;
         Created "export_2024-10-24_to_2024-10-26_1_records.csv"
           [ ["2024-10-26T23:59:58-07:00"; "123"; "1"] ];
         Printed (Line "Exported 1 records to export_2024-10-24_to_2024-10-26_1_records.csv") ]
  /\ trace (worldOf (Variant.runExportMode Sample.zone "2024-10-26" "" v))
     = [ ReadStore Variant.exportFile;
         Created "export_2024-10-26_1_records.csv"
           [ ["2024-10-26T23:59:58-07:00"; "123"; "1"] ];
         Printed (Line "Exported 1 records to export_2024-10-26_1_records.csv") ].
Proof. vm_compute. repeat split; reflexivity. Qed.

(** The same for every date and zone: the window ends one second before
    the midnight that follows the end day, and a record at or after that
    instant is left out, so the last second of the end day is never
    exported. *)
Lemma last_second_is_left_out loc start endDate stop :
  windowEnd loc start endDate = Some stop ->
  exists day,
    (if String.eqb endDate "" then day = start
     else ParseDateInLocation loc endDate = Some day)
    /\ unixNano stop = unixNano day + 24 * Hour - Second
    /\ forall recordTime,
         unixNano day + 24 * Hour - Second <= unixNano recordTime ->
         inWindow start stop recordTime = false.
Proof.
  unfold windowEnd. intros H.
  assert (Hout : forall day recordTime,
             unixNano day + 24 * Hour - Second <= unixNano recordTime ->
             inWindow start (Add (Add day (24 * Hour)) (- Second)) recordTime
             = false).
  { intros day recordTime Hle. unfold inWindow, Before, Add. cbn [unixNano].
    apply andb_false_iff. right. apply Z.ltb_ge. lia. }
  destruct (String.eqb endDate "").
  - exists start. injection H as <-. split; [reflexivity|].
    split; [cbn [Add unixNano]; lia | apply Hout].
  - destruct (ParseDateInLocation loc endDate) as [day|]; [|discriminate].
    exists day. cbn in H. injection H as <-. split; [reflexivity|].
    split; [cbn [Add unixNano]; lia | apply Hout].
Qed.

(** ** C2: the file the two modes work on *)

(** C2 (the code departs from the claim). In checkin.go scan mode
    appends to scans.csv and export mode opens scanned_barcodes.csv: after
    a scan session that recorded one barcode the export finds no file to
    open, where the second source file, which opens scans.csv in both
    modes, exports the record. *)
Theorem export_opens_another_file :
  let scanned := worldOf (Checkin.runScanMode
                            (Sample.at_ "2024-10-26T21:00:00-07:00")
                            [ Sample.scan "123" "2024-10-26T21:05:00-07:00";
                              Sample.scan "exit" "2024-10-26T21:06:00-07:00" ]
                            Sample.noFiles) in
  let older := worldOf (Variant.runScanMode
                          [ Sample.scan "123" "2024-10-26T21:05:00-07:00";
                            Sample.scan "exit" "2024-10-26T21:06:00-07:00" ]
                          Sample.noFiles) in
  Checkin.scanFile <> Checkin.exportFile
  /\ Variant.scanFile = Variant.exportFile
  /\ content Checkin.scanFile scanned
     = [ Csv.Row "2024-10-26T21:05:00-07:00" ["123"; "1"] ]
  /\ files scanned !! Checkin.exportFile = None
  /\ drop (length (trace scanned))
       (trace (worldOf (Checkin.runExportMode Sample.zone "2024-10-26" "" scanned)))
     = [ Printed (ErrLine "Error opening file:") ]
  /\ drop (length (trace older))
       (trace (worldOf (Variant.runExportMode Sample.zone "2024-10-26" "" older)))
     = [ ReadStore Variant.exportFile;
         Created "export_2024-10-26_1_records.csv"
           [ ["2024-10-26T21:05:00-07:00"; "123"] ];
         Printed (Line "Exported 1 records to export_2024-10-26_1_records.csv") ].
Proof. vm_compute. repeat split; try reflexivity. discriminate. Qed.

(** Whatever is scanned, scan mode of checkin.go leaves the file its
    export mode opens as it found it. *)
Lemma scan_never_writes_export_file start inputs w :
  files (worldOf (Checkin.runScanMode start inputs w)) !! Checkin.exportFile
  = match Checkin.runScanMode start inputs w with
    | Ok _ => files w !! Checkin.exportFile
    | Panic => None
    end.
Proof.
  destruct (Checkin.runScanMode start inputs w) as [[u w']|] eqn:E.
  - cbn [worldOf].
    assert (Hne : Checkin.exportFile <> Checkin.scanFile) by discriminate.
    apply (runScanMode_others _ _ _ _ _ _ Hne E).
  - reflexivity.
Qed.

(** ** C3: the sequence of an appended record *)




(** What such a session leaves in the store, a change of day included. *)
Example session_rows :
  content Checkin.scanFile
    (worldOf (scanSession Checkin.scanFile
       (Sample.at_ "2024-10-26T21:00:00-07:00")
       [ Sample.scan "333" "2024-10-26T21:05:00-07:00";
         Sample.scan "abc" "2024-10-26T21:06:00-07:00";
         Sample.scan "222" "2024-10-26T21:10:00-07:00";
         Sample.scan "444" "2024-10-26T21:15:00-07:00";
         Sample.scan "555" "2024-10-27T00:05:00-07:00" ]
       (Sample.storeOf Checkin.scanFile Sample.evening)))
  = Sample.evening
    ++ [ Csv.Row "2024-10-26T21:05:00-07:00" ["333"; "3"];
         Csv.Row "2024-10-26T21:15:00-07:00" ["444"; "4"];
         Csv.Row "2024-10-27T00:05:00-07:00" ["555"; "1"] ].
Proof. vm_compute. reflexivity. Qed.

(** ** C4: what is read again on each pass *)

(** C4 (amended). The daily count is read from the store once, when
    scan mode starts, and gives the counter its first value. On every
    pass of the scan loop with a digit-only barcode the duplicate check
    reads the store again from its start, and it is the only read of
    the pass; the sequence of an appended record is one more than the
    counter kept across passes (taken as 0 when the date has changed),
    whatever the store holds by then. *)
Theorem count_read_once_then_kept file start w st0 w0 st inp w1 st' w' :
  Checkin.scanInit file start w = Ok (st0, w0) ->
  Checkin.scanIteration file st inp w1 = Ok (st', w') ->
  numRegex_MatchString (barcodeID inp) = true ->
  (Checkin.currentDate st0 = formatDate start
   /\ valueOf (Checkin.getDailyCount file (formatDate start) w)
      = Ok (Checkin.dailyCount st0)
   /\ reads (trace w0) = reads (trace w) ++ [ReadStore file])
  /\ (exists evs,
        trace w' = trace w1 ++ ReadStore file :: evs
        /\ reads evs = []
        /\ forall r,
             In (Appended file r) evs ->
             r = [ formatStamp (now inp); barcodeID inp;
                   itoa (wrap64
                           ((if String.eqb (formatDate (now inp))
                                  (Checkin.currentDate st)
                             then Checkin.dailyCount st else 0) + 1)) ]).
Proof.
  intros Hinit Hpass Hnum. split; [exact (scanInit_pass _ _ _ _ _ Hinit)|].
  destruct (scanIteration_pass _ _ _ _ _ _ Hpass)
    as [(Hno & _)|(_ & evs & Hevs & [(_ & ->)|(_ & ->)])];
    [congruence| |]; cbn [trace].
  - eexists. split; [reflexivity|]. split.
    + unfold reads. rewrite List.filter_app.
      fold (reads evs). rewrite (complaint_not_read _ Hevs). reflexivity.
    + intros r H. apply in_app_or in H as [H|[H|[]]]; [|discriminate].
      destruct (complaint_not_append _ _ _ Hevs H).
  - eexists. split; [reflexivity|]. split.
    + unfold reads. rewrite List.filter_app.
      fold (reads evs). rewrite (complaint_not_read _ Hevs). reflexivity.
    + intros r H. apply in_app_or in H as [H|[H|[H|[]]]]; try discriminate.
      { destruct (complaint_not_append _ _ _ Hevs H). }
      injection H as <-. reflexivity.
Qed.

Lemma count_read_once_then_kept_witness :
  let file := Checkin.scanFile in
  let start := Sample.at_ "2024-10-26T21:00:00-07:00" in
  let w := Sample.storeOf Checkin.scanFile Sample.evening in
  let st0 := Checkin.mkLoop "2024-10-26" 2 in
  let w0 := worldOf (Checkin.scanInit file start w) in
  let st := Checkin.mkLoop "2024-10-26" 2 in
  let inp := Sample.scan "333" "2024-10-26T21:05:00-07:00" in
  let w1 := w0 in
  let w' := worldOf (Checkin.scanIteration file st inp w1) in
  (Checkin.currentDate st0 = formatDate start
   /\ valueOf (Checkin.getDailyCount file (formatDate start) w)
      = Ok (Checkin.dailyCount st0)
   /\ reads (trace w0) = reads (trace w) ++ [ReadStore file])
  /\ (exists evs,
        trace w' = trace w1 ++ ReadStore file :: evs
        /\ reads evs = []
        /\ forall r,
             In (Appended file r) evs ->
             r = [ formatStamp (now inp); barcodeID inp;
                   itoa (wrap64
                           ((if String.eqb (formatDate (now inp))
                                  (Checkin.currentDate st)
                             then Checkin.dailyCount st else 0) + 1)) ]).
Proof.
  apply (count_read_once_then_kept Checkin.scanFile
           (Sample.at_ "2024-10-26T21:00:00-07:00")
           (Sample.storeOf Checkin.scanFile Sample.evening)
           (Checkin.mkLoop "2024-10-26" 2)
           (worldOf (Checkin.scanInit Checkin.scanFile
                       (Sample.at_ "2024-10-26T21:00:00-07:00")
                       (Sample.storeOf Checkin.scanFile Sample.evening)))
           (Checkin.mkLoop "2024-10-26" 2)
           (Sample.scan "333" "2024-10-26T21:05:00-07:00")
           (worldOf (Checkin.scanInit Checkin.scanFile
                       (Sample.at_ "2024-10-26T21:00:00-07:00")
                       (Sample.storeOf Checkin.scanFile Sample.evening)))
           (Checkin.mkLoop "2024-10-26" 3));
    vm_compute; reflexivity.
Defined.

(** C4 as stated fails. A first instance of scan mode starts on an empty
    store; a second instance records a barcode with sequence 1 and
    exits; the first instance then records another barcode: its pass
    reads the store once, for the duplicate check, and appends sequence 1
    again, where a count read again from the store (it is 1 by then)
    would have given 2. *)
Lemma count_is_not_reread :
  let file := Checkin.scanFile in
  let first := Checkin.scanInit file (Sample.at_ "2024-10-26T21:00:00-07:00")
                 Sample.noFiles in
  let st := Checkin.mkLoop "2024-10-26" 0 in
  let other := Checkin.runScanMode (Sample.at_ "2024-10-26T21:01:00-07:00")
                 [ Sample.scan "777" "2024-10-26T21:02:00-07:00";
                   Sample.scan "exit" "2024-10-26T21:03:00-07:00" ]
                 (worldOf first) in
  let w := worldOf other in
  let pass := Checkin.scanIteration file st
                (Sample.scan "123" "2024-10-26T21:04:00-07:00") w in
  valueOf first = Ok st
  /\ content file w = [ Csv.Row "2024-10-26T21:02:00-07:00" ["777"; "1"] ]
  /\ valueOf (Checkin.getDailyCount file "2024-10-26" w) = Ok 1
  /\ reads (drop (length (trace w)) (trace (worldOf pass))) = [ReadStore file]
  /\ content file (worldOf pass)
     = content file w
       ++ [ Csv.Row "2024-10-26T21:04:00-07:00" ["123"; "1"] ]
  /\ "1" <> itoa (1 + 1).
Proof. vm_compute. repeat split; try reflexivity. discriminate. Qed.

(** ** C5: the two-hour window *)




(** The same barcode scanned three times: within the two hours it is
    turned away, at the end of the two hours it is recorded again. *)
Example three_scans_of_one_barcode :
  content Checkin.scanFile
    (worldOf (Checkin.scanLoop Checkin.scanFile (Checkin.mkLoop "2024-10-26" 2)
       [ Sample.scan "333" "2024-10-26T21:05:00-07:00";
         Sample.scan "333" "2024-10-26T23:04:59-07:00";
         Sample.scan "333" "2024-10-26T23:05:00-07:00" ]
       (Sample.storeOf Checkin.scanFile Sample.evening)))
  = Sample.evening
    ++ [ Csv.Row "2024-10-26T21:05:00-07:00" ["333"; "3"];
         Csv.Row "2024-10-26T23:05:00-07:00" ["333"; "4"] ].
Proof. vm_compute. reflexivity. Qed.

(** ** C6: rows that are not as they should be *)




(** Beyond that, a first field of fewer than ten bytes makes the daily
    count panic, and a row of one field with a timestamp that parses
    makes the duplicate check panic. *)
Example short_timestamp_panics :
  Checkin.getDailyCount Checkin.scanFile "2024-10-26"
    (Sample.storeOf Checkin.scanFile [Csv.Row "garbled" ["33"; "2"]])
  = Panic
  /\ Checkin.checkRecentDuplicate Checkin.scanFile "33"
       (Sample.at_ "2024-10-26T21:00:00-07:00")
       (Sample.storeOf Checkin.scanFile [Csv.Row "2024-10-26T20:00:00-07:00" []])
     = Panic.
Proof. vm_compute. split; reflexivity. Qed.

(** ** C7: the fields of an appended record *)

(** C7 (amended). A pass of the scan loop of checkin.go leaves the store
    as it was or appends one record of three fields: a timestamp of the
    shape YYYY-MM-DDTHH:MM:SS±HH:MM, the digit-only barcode, and a
    sequence that is a positive integer in decimal digits, for an
    ordinary clock reading and a counter that is not negative and below
    the largest [int]. Scan mode of the second source file appends two
    fields, the timestamp and the barcode. *)
Theorem appended_record_fields file st inp w st' w' :
  Checkin.scanIteration file st inp w = Ok (st', w') ->
  ordinary (now inp) = true ->
  0 <= Checkin.dailyCount st < max_int ->
  (content file w' = content file w
   \/ exists seq n,
        content file w'
        = content file w
          ++ [Csv.Row (formatStamp (now inp)) [barcodeID inp; seq]]
        /\ isStamp (formatStamp (now inp)) = true
        /\ numRegex_MatchString (barcodeID inp) = true
        /\ numRegex_MatchString seq = true
        /\ Atoi seq = Some n /\ 0 < n)
  /\ (numRegex_MatchString (barcodeID inp) = true ->
      exists v',
        Variant.scanIteration file inp w = Ok (tt, v')
        /\ content file v'
           = content file w
             ++ [Csv.Row (formatStamp (now inp)) [barcodeID inp]]).
Proof.
  intros Hpass Ho Hcount. split.
  - destruct (scanIteration_pass _ _ _ _ _ _ Hpass)
      as [(_ & _ & ->)|(Hnum & evs & _ & [(_ & ->)|(_ & ->)])];
      [left; reflexivity | left; reflexivity |].
    right.
    set (n := Checkin.dailyCount (nextState st (now inp))).
    assert (Hn : 0 < n <= max_int).
    { unfold n, nextState. cbn [Checkin.dailyCount].
      destruct (String.eqb _ _);
        rewrite wrap64_small by (unfold min_int, max_int in *; lia);
        unfold max_int in *; lia. }
    exists (itoa n), n. rewrite content_insert.
    split; [reflexivity|].
    split; [apply (formatStamp_shape _ Ho)|].
    split; [exact Hnum|].
    split; [apply itoa_digits; lia|].
    split; [|lia]. apply Atoi_itoa. unfold in_int, min_int.
    apply andb_true_iff. rewrite !Z.leb_le. lia.
  - intros Hnum. unfold Variant.scanIteration. rewrite Hnum. cbn [negb]. run.
    eexists. split; [reflexivity|]. rewrite content_insert. reflexivity.
Qed.

Lemma appended_record_fields_witness :
  let file := Checkin.scanFile in
  let st := Checkin.mkLoop "2024-10-26" 2 in
  let inp := Sample.scan "333" "2024-10-26T21:05:00-07:00" in
  let w := Sample.storeOf Checkin.scanFile Sample.evening in
  let w' := worldOf (Checkin.scanIteration file st inp w) in
  (content file w' = content file w
   \/ exists seq n,
        content file w'
        = content file w
          ++ [Csv.Row (formatStamp (now inp)) [barcodeID inp; seq]]
        /\ isStamp (formatStamp (now inp)) = true
        /\ numRegex_MatchString (barcodeID inp) = true
        /\ numRegex_MatchString seq = true
        /\ Atoi seq = Some n /\ 0 < n)
  /\ (numRegex_MatchString (barcodeID inp) = true ->
      exists v',
        Variant.scanIteration file inp w = Ok (tt, v')
        /\ content file v'
           = content file w
             ++ [Csv.Row (formatStamp (now inp)) [barcodeID inp]]).
Proof.
  apply (appended_record_fields Checkin.scanFile
           (Checkin.mkLoop "2024-10-26" 2)
           (Sample.scan "333" "2024-10-26T21:05:00-07:00")
           (Sample.storeOf Checkin.scanFile Sample.evening)
           (Checkin.mkLoop "2024-10-26" 3)
           (worldOf (Checkin.scanIteration Checkin.scanFile
                       (Checkin.mkLoop "2024-10-26" 2)
                       (Sample.scan "333" "2024-10-26T21:05:00-07:00")
                       (Sample.storeOf Checkin.scanFile Sample.evening))));
    [ vm_compute; reflexivity | vm_compute; reflexivity
    | vm_compute; split; [discriminate | reflexivity] ].
Defined.

(** C7 as stated fails. Scan mode of the second source file, run on an
    empty store with one barcode, leaves a record of two fields in
    scans.csv. *)
Lemma variant_appends_two_fields :
  let w := worldOf (Variant.runScanMode
                      [ Sample.scan "123" "2024-10-26T21:05:00-07:00" ]
                      Sample.noFiles) in
  content Variant.scanFile w = [ Csv.Row "2024-10-26T21:05:00-07:00" ["123"] ]
  /\ Csv.ReadAll (content Variant.scanFile w)
     = Some [ ["2024-10-26T21:05:00-07:00"; "123"] ]
  /\ length ["2024-10-26T21:05:00-07:00"; "123"] <> 3%nat.
Proof. vm_compute. repeat split; try reflexivity. discriminate. Qed.

(** ** C8 and C9: what an export writes *)

(** C8. When the date filter of an export matches none of the stored
    records, the program prints "No records found for the specified date
    range." and creates no file: the files are what they were. The
    statement is for the export of either source file ([store] is the
    name it opens) once the store has been read and the dates parsed. *)
Theorem export_without_match store loc startDate endDate w ls records
    start stop :
  files w !! store = Some ls ->
  Csv.ReadAll ls = Some records ->
  ParseDateInLocation loc startDate = Some start ->
  windowEnd loc start endDate = Some stop ->
  List.filter (matches start stop) records = [] ->
  exists w',
    runExportModeOn store loc startDate endDate w = Ok (tt, w')
    /\ files w' = files w
    /\ trace w' = trace w ++ ReadStore store :: complaints records
         ++ [Printed (Line "No records found for the specified date range.")].
Proof.
  intros Hf Hr Hs He Hnone.
  rewrite (runExportModeOn_run _ _ _ _ _ _ _ _ _ Hf Hr Hs He), Hnone.
  eexists. split; [reflexivity|]. split; reflexivity.
Qed.

Lemma export_without_match_witness :
  let w := Sample.storeOf Checkin.exportFile Sample.fourDays in
  exists w',
    runExportModeOn Checkin.exportFile Sample.zone "2024-10-26" "" w
    = Ok (tt, w')
    /\ files w' = files w
    /\ trace w' = trace w ++ ReadStore Checkin.exportFile
         :: complaints Sample.fourDayRecords
         ++ [Printed (Line "No records found for the specified date range.")].
Proof.
  apply (export_without_match Checkin.exportFile Sample.zone "2024-10-26" ""
           (Sample.storeOf Checkin.exportFile Sample.fourDays)
           Sample.fourDays Sample.fourDayRecords
           (Sample.at_ "2024-10-26T00:00:00-07:00")
           (Sample.at_ "2024-10-26T23:59:59-07:00"));
    vm_compute; reflexivity.
Defined.

(** C9. When at least one record matches, the matching records are
    written in the order they have in the store (the output is the store's
    records with the non-matching ones dropped, and reads back as such),
    to a file named export_<start>_<count>_records.csv when no end date
    is given and export_<start>_to_<end>_<count>_records.csv otherwise,
    <count> being the number of matching records. *)
Theorem export_with_matches store loc startDate endDate w ls records
    start stop :
  files w !! store = Some ls ->
  Csv.ReadAll ls = Some records ->
  ParseDateInLocation loc startDate = Some start ->
  windowEnd loc start endDate = Some stop ->
  List.filter (matches start stop) records <> [] ->
  let kept := List.filter (matches start stop) records in
  let count := itoa (Z.of_nat (length kept)) in
  let filename :=
    if String.eqb endDate "" then
      "export_" +:+ startDate +:+ "_" +:+ count +:+ "_records.csv"
    else
      "export_" +:+ startDate +:+ "_to_" +:+ endDate +:+ "_" +:+ count
        +:+ "_records.csv" in
  exists w',
    runExportModeOn store loc startDate endDate w = Ok (tt, w')
    /\ files w' = <[filename := Csv.linesOf kept]> (files w)
    /\ Csv.ReadAll (Csv.linesOf kept) = Some kept
    /\ sublist kept records.
Proof.
  intros Hf Hr Hs He Hsome kept count filename.
  rewrite (runExportModeOn_run _ _ _ _ _ _ _ _ _ Hf Hr Hs He).
  fold kept. unfold exported.
  destruct kept as [|r kept'] eqn:K; [contradiction|].
  eexists. split; [reflexivity|]. split.
  - cbn [files]. unfold exportName. reflexivity.
  - split; [|rewrite <- K; apply filter_sublist].
    destruct (CsvFacts.ReadAll_same_length _ _ Hr) as (n & Hn & Hall).
    apply (CsvFacts.ReadAll_lines n); [|exact Hn].
    rewrite <- K. rewrite List.Forall_forall in *. intros x Hx.
    apply Hall. unfold kept in Hx. apply filter_In in Hx. tauto.
Qed.

Lemma export_with_matches_witness :
  let w := Sample.storeOf Variant.exportFile Sample.fourDays in
  let start := Sample.at_ "2024-10-24T00:00:00-07:00" in
  let stop := Sample.at_ "2024-10-26T23:59:59-07:00" in
  let kept := List.filter (matches start stop) Sample.fourDayRecords in
  let count := itoa (Z.of_nat (length kept)) in
  let filename :=
    if String.eqb "2024-10-26" "" then
      "export_" +:+ "2024-10-24" +:+ "_" +:+ count +:+ "_records.csv"
    else
      "export_" +:+ "2024-10-24" +:+ "_to_" +:+ "2024-10-26" +:+ "_" +:+ count
        +:+ "_records.csv" in
  exists w',
    runExportModeOn Variant.exportFile Sample.zone "2024-10-24" "2024-10-26" w
    = Ok (tt, w')
    /\ files w' = <[filename := Csv.linesOf kept]> (files w)
    /\ Csv.ReadAll (Csv.linesOf kept) = Some kept
    /\ sublist kept Sample.fourDayRecords.
Proof.
  apply (export_with_matches Variant.exportFile Sample.zone
           "2024-10-24" "2024-10-26"
           (Sample.storeOf Variant.exportFile Sample.fourDays)
           Sample.fourDays Sample.fourDayRecords
           (Sample.at_ "2024-10-24T00:00:00-07:00")
           (Sample.at_ "2024-10-26T23:59:59-07:00"));
    vm_compute; solve [reflexivity | discriminate].
Defined.

(** ** C10: the duplicate check and the calendar day *)

(** C10. The duplicate check depends on the barcode and on the time of
    the stored record only: when a stored record has the barcode and a
    timestamp strictly later than two hours before the check, the check
    says yes and the scan is turned away whatever date and counter the
    loop remembers, the day after the record was written included; at
    the same time a barcode that is accepted on a date other than the
    remembered one is recorded with sequence 1. *)
Theorem duplicate_check_ignores_day file w records ts rest recordTime
    barcode checkTime :
  Csv.ReadAll (content file w) = Some records ->
  In (ts :: barcode :: rest) records ->
  Parse ts = Some recordTime ->
  unixNano checkTime - 2 * Hour < unixNano recordTime ->
  (exists w',
     Checkin.checkRecentDuplicate file barcode checkTime w = Ok (true, w')
     /\ files w' = files w)
  /\ (numRegex_MatchString barcode = true ->
      forall st scanTime,
      exists w' evs,
        Checkin.scanIteration file st (mkInput barcode checkTime scanTime) w
        = Ok (st, w')
        /\ files w' = files w
        /\ trace w' = trace w ++ evs /\ In duplicateNotice evs)
  /\ (forall st inp,
        numRegex_MatchString (barcodeID inp) = true ->
        recentDuplicate (barcodeID inp) (nowCheck inp) records = false ->
        formatDate (now inp) <> Checkin.currentDate st ->
        exists st' w',
          Checkin.scanIteration file st inp w = Ok (st', w')
          /\ content file w'
             = content file w
               ++ [Csv.Row (formatStamp (now inp)) [barcodeID inp; "1"]]).
Proof.
  intros Hr Hin Hp Hlt.
  assert (Hrecent : recentDuplicate barcode checkTime records = true).
  { apply recentDuplicate_spec. exists ts, rest, recordTime. tauto. }
  assert (Hlen : Forall (fun r : list string => (2 <= length r)%nat) records).
  { destruct (ReadAll_same_length _ _ Hr) as (n & _ & Hall).
    pose proof Hall as Hall'. rewrite List.Forall_forall in Hall'.
    specialize (Hall' _ Hin). cbn [length] in Hall'.
    eapply Forall_impl; [exact Hall|]. intros r Hl. simpl in Hl. lia. }
  split; [|split].
  - destruct (checkRecentDuplicate_run file barcode checkTime w records Hr Hlen)
      as (evs & Hrun & _).
    rewrite Hrun, Hrecent. eexists. split; reflexivity.
  - intros Hnum st scanTime.
    destruct (scanIteration_run file st (mkInput barcode checkTime scanTime) w records
                Hnum Hr Hlen) as (evs & _ & Hrun).
    cbn [barcodeID nowCheck] in Hrun. rewrite Hrecent in Hrun.
    rewrite Hrun. eexists _, _. split; [reflexivity|]. cbn [files trace].
    split; [reflexivity|]. split; [reflexivity|].
    right. apply in_or_app. right. left. reflexivity.
  - intros st inp Hnum Hfresh Hday.
    destruct (scanIteration_run file st inp w records Hnum Hr Hlen)
      as (evs & _ & Hrun).
    rewrite Hfresh in Hrun. rewrite Hrun. eexists _, _.
    split; [reflexivity|]. rewrite content_insert.
    unfold newRecord, nextState.
    destruct (String.eqb_spec (formatDate (now inp)) (Checkin.currentDate st));
      [contradiction|]. reflexivity.
Qed.

Lemma duplicate_check_ignores_day_witness :
  let file := Checkin.scanFile in
  let w := Sample.storeOf Checkin.scanFile Sample.beforeMidnight in
  let records := [["2024-10-26T23:30:00-07:00"; "123"; "9"]] in
  let barcode := "123" in
  let checkTime := Sample.at_ "2024-10-27T00:10:00-07:00" in
  (exists w',
     Checkin.checkRecentDuplicate file barcode checkTime w = Ok (true, w')
     /\ files w' = files w)
  /\ (numRegex_MatchString barcode = true ->
      forall st scanTime,
      exists w' evs,
        Checkin.scanIteration file st (mkInput barcode checkTime scanTime) w
        = Ok (st, w')
        /\ files w' = files w
        /\ trace w' = trace w ++ evs /\ In duplicateNotice evs)
  /\ (forall st inp,
        numRegex_MatchString (barcodeID inp) = true ->
        recentDuplicate (barcodeID inp) (nowCheck inp) records = false ->
        formatDate (now inp) <> Checkin.currentDate st ->
        exists st' w',
          Checkin.scanIteration file st inp w = Ok (st', w')
          /\ content file w'
             = content file w
               ++ [Csv.Row (formatStamp (now inp)) [barcodeID inp; "1"]]).
Proof.
  apply (duplicate_check_ignores_day Checkin.scanFile
           (Sample.storeOf Checkin.scanFile Sample.beforeMidnight)
           [["2024-10-26T23:30:00-07:00"; "123"; "9"]]
           "2024-10-26T23:30:00-07:00" ["9"]
           (Sample.at_ "2024-10-26T23:30:00-07:00")
           "123" (Sample.at_ "2024-10-27T00:10:00-07:00"));
    [ vm_compute; reflexivity | left; reflexivity | vm_compute; reflexivity
    | vm_compute; reflexivity ].
Defined.

(** Shortly after midnight: the barcode recorded at 23:30 is turned
    away, another one is recorded with sequence 1. *)
Example after_midnight :
  content Checkin.scanFile
    (worldOf (Checkin.runScanMode (Sample.at_ "2024-10-26T23:00:00-07:00")
       [ Sample.scan "123" "2024-10-27T00:10:00-07:00";
         Sample.scan "456" "2024-10-27T00:11:00-07:00" ]
       (Sample.storeOf Checkin.scanFile Sample.beforeMidnight)))
  = Sample.beforeMidnight
    ++ [ Csv.Row "2024-10-27T00:11:00-07:00" ["456"; "1"] ].
Proof. vm_compute. reflexivity. Qed.

End Claims.

(** * Further properties of the program *)

(** ** Sessions *)

Module SessionFacts.
Import Go GoTime Common StampSpec ScanSpec ExportSpec SessionSpec.
Import StampFacts CsvFacts ExportFacts ScanFacts.


(** *** Computations that do not look at the trace *)

Lemma traceBlind_ret {A} (a : A) : traceBlind (ret a).
Proof. intros fs pre tr. reflexivity. Qed.

Lemma traceBlind_bind {A B} (m : M A) (k : A -> M B) :
  traceBlind m -> (forall a, traceBlind (k a)) -> traceBlind (bind m k).
Proof.
  intros Hm Hk fs pre tr. unfold bind. rewrite Hm.
  destruct (m (mkWorld fs tr)) as [[a [fs1 tr1]]|]; [|reflexivity].
  cbn [later files trace]. apply Hk.
Qed.

Lemma traceBlind_lift {A} (r : result A) : traceBlind (lift r).
Proof. intros fs pre tr. destruct r; reflexivity. Qed.

Lemma traceBlind_emit e : traceBlind (emit e).
Proof.
  intros fs pre tr. unfold emit. cbn [later files trace].
  rewrite app_assoc3. reflexivity.
Qed.

Lemma traceBlind_println m : traceBlind (println m).
Proof. apply traceBlind_emit. Qed.

Lemma traceBlind_readAll name : traceBlind (readAll name).
Proof.
  intros fs pre tr. unfold readAll, content. cbn [later files trace].
  rewrite app_assoc3. reflexivity.
Qed.

Lemma traceBlind_append name record : traceBlind (append name record).
Proof.
  intros fs pre tr. unfold append, content. cbn [later files trace].
  rewrite app_assoc3. reflexivity.
Qed.

Lemma traceBlind_openOrCreate name : traceBlind (openOrCreate name).
Proof.
  intros fs pre tr. unfold openOrCreate. cbn [files trace].
  destruct (fs !! name); reflexivity.
Qed.

Lemma traceBlind_create name records : traceBlind (create name records).
Proof.
  intros fs pre tr. unfold create. cbn [later files trace].
  rewrite app_assoc3. reflexivity.
Qed.

Lemma traceBlind_exists_file name : traceBlind (exists_file name).
Proof. intros fs pre tr. reflexivity. Qed.

Create HintDb blind.

#[local] Hint Resolve traceBlind_ret traceBlind_lift traceBlind_emit
  traceBlind_println traceBlind_readAll traceBlind_append
  traceBlind_openOrCreate traceBlind_create traceBlind_exists_file : blind.

Ltac blind :=
  repeat first
    [ solve [auto with blind]
    | apply traceBlind_bind; [|intros ?]
    | match goal with
      | |- traceBlind (if ?b then _ else _) => destruct b
      | |- traceBlind (match ?x with _ => _ end) => destruct x
      end ].

Lemma traceBlind_recentIn b cutoff records :
  traceBlind (Checkin.recentIn b cutoff records).
Proof.
  induction records as [|r records IH]; cbn [Checkin.recentIn]; blind.
Qed.

#[local] Hint Resolve traceBlind_recentIn : blind.

Lemma traceBlind_checkRecentDuplicate file b checkTime :
  traceBlind (Checkin.checkRecentDuplicate file b checkTime).
Proof.
  unfold Checkin.checkRecentDuplicate. blind.
Qed.

#[local] Hint Resolve traceBlind_checkRecentDuplicate : blind.

Lemma traceBlind_scanIteration file st inp :
  traceBlind (Checkin.scanIteration file st inp).
Proof.
  unfold Checkin.scanIteration.
  destruct (numRegex_MatchString (barcodeID inp)); cbn [negb]; blind.
Qed.

#[local] Hint Resolve traceBlind_scanIteration : blind.

Lemma traceBlind_scanLoop file inputs : forall st,
  traceBlind (Checkin.scanLoop file st inputs).
Proof.
  induction inputs as [|inp inputs IH]; intros st; cbn [Checkin.scanLoop];
    blind.
Qed.

Lemma traceBlind_variant_scanIteration file inp :
  traceBlind (Variant.scanIteration file inp).
Proof. unfold Variant.scanIteration. blind. Qed.

#[local] Hint Resolve traceBlind_variant_scanIteration : blind.

Lemma traceBlind_variant_scanLoop file inputs :
  traceBlind (Variant.scanLoop file inputs).
Proof.
  induction inputs as [|inp inputs IH]; cbn [Variant.scanLoop]; blind.
Qed.

(** A trace-blind computation run after [evs] is the computation run from
    an empty trace with [evs] put in front. *)
Lemma traceBlind_from_empty {A} (m : M A) fs tr :
  traceBlind m -> m (mkWorld fs tr) = later tr (m (mkWorld fs [])).
Proof.
  intros Hm. rewrite <- (app_nil_r tr) at 1. apply Hm.
Qed.

(** *** The loop of the second source file *)

Lemma variant_scanLoop_run file inputs : forall w,
  exists w',
    Variant.scanLoop file inputs w = Ok (tt, w')
    /\ content file w'
       = content file w ++ map variantRow (List.filter numeric (untilExit inputs))
    /\ forall name, name <> file -> files w' !! name = files w !! name.
Proof.
  induction inputs as [|inp inputs IH]; intros w.
  - exists w. cbn. rewrite app_nil_r. auto.
  - cbn [Variant.scanLoop untilExit]. unfold bind at 1, println, emit.
    destruct (String.eqb (barcodeID inp) "exit").
    + eexists. split; [reflexivity|]. cbn [List.filter map].
      rewrite app_nil_r. split; [reflexivity|]. intros name _. reflexivity.
    + cbn [List.filter]. unfold numeric at 1, Variant.scanIteration.
      destruct (numRegex_MatchString (barcodeID inp)); cbn [negb].
      * run.
        match goal with
        | |- context [Variant.scanLoop file inputs ?wx] =>
            destruct (IH wx) as (w' & Hrun & Hc & Ho)
        end.
        exists w'. split; [exact Hrun|]. rewrite Hc, content_insert.
        cbn [map]. unfold content. cbn [files].
        split; [rewrite <- List.app_assoc; reflexivity|].
        intros name Hne. rewrite (Ho name Hne). cbn [files].
        apply lookup_insert_ne. intros Heq. apply Hne. symmetry. exact Heq.
      * run.
        match goal with
        | |- context [Variant.scanLoop file inputs ?wx] =>
            destruct (IH wx) as (w' & Hrun & Hc & Ho)
        end.
        exists w'. split; [exact Hrun|]. split; [exact Hc|exact Ho].
Qed.

Lemma variant_runScanMode_run inputs w :
  exists w',
    Variant.runScanMode inputs w = Ok (tt, w')
    /\ content Variant.scanFile w'
       = content Variant.scanFile w
         ++ map variantRow (List.filter numeric (untilExit inputs))
    /\ forall name, name <> Variant.scanFile ->
         files w' !! name = files w !! name.
Proof.
  unfold Variant.runScanMode. unfold bind at 1.
  pose proof (content_openOrCreate Variant.scanFile Variant.scanFile w) as Hc.
  destruct (openOrCreate Variant.scanFile w) as [[[] w1]|] eqn:O; [|contradiction].
  destruct Hc as (Hc & _).
  assert (Ho1 : forall name, name <> Variant.scanFile ->
                  files w1 !! name = files w !! name).
  { intros name Hne. unfold openOrCreate in O.
    destruct (files w !! Variant.scanFile).
    - apply Ok_inv in O as [_ <-]. reflexivity.
    - apply Ok_inv in O as [_ <-]. cbn [files].
      apply lookup_insert_ne. intros Heq. apply Hne. symmetry. exact Heq. }
  unfold bind at 1, println, emit.
  match goal with
  | |- context [Variant.scanLoop _ inputs ?wx] =>
      destruct (variant_scanLoop_run Variant.scanFile inputs wx)
        as (w' & Hrun & Hc' & Ho)
  end.
  exists w'. split; [exact Hrun|]. split.
  - rewrite Hc'. rewrite content_files, Hc. reflexivity.
  - intros name Hne. rewrite (Ho name Hne). cbn [files]. apply Ho1, Hne.
Qed.

End SessionFacts.

(** ** Exports *)

Module OutcomeFacts.
Import Go GoTime Common ExportSpec OutcomeSpec.
Import StampFacts CsvFacts ExportFacts ScanFacts.

(** Whatever the files hold, an export returns, and the files it leaves
    are those of [filesAfterExport]. *)
Lemma runExportModeOn_files store loc startDate endDate w :
  exists w',
    runExportModeOn store loc startDate endDate w = Ok (tt, w')
    /\ files w' = filesAfterExport store loc startDate endDate w.
Proof.
  unfold filesAfterExport, selection.
  destruct (files w !! store) as [ls|] eqn:Hf.
  2:{ unfold runExportModeOn. run. rewrite Hf.
      rewrite bool_decide_false by (intros [x Hx]; discriminate).
      cbn [negb]. eexists. split; reflexivity. }
  destruct (Csv.ReadAll ls) as [records|] eqn:Hr.
  2:{ unfold runExportModeOn. run. rewrite Hf.
      rewrite bool_decide_true by eauto. cbn [negb].
      rewrite (content_lookup _ _ _ Hf), Hr. eexists. split; reflexivity. }
  destruct (ParseDateInLocation loc startDate) as [start|] eqn:Hs.
  2:{ unfold runExportModeOn. run. rewrite Hf.
      rewrite bool_decide_true by eauto. cbn [negb].
      rewrite (content_lookup _ _ _ Hf), Hr, Hs. eexists. split; reflexivity. }
  destruct (windowEnd loc start endDate) as [stop|] eqn:He.
  2:{ unfold runExportModeOn. run. rewrite Hf.
      rewrite bool_decide_true by eauto. cbn [negb].
      rewrite (content_lookup _ _ _ Hf), Hr, Hs, He.
      eexists. split; reflexivity. }
  rewrite (runExportModeOn_run _ _ _ _ _ _ _ _ _ Hf Hr Hs He).
  eexists. split; [reflexivity|]. unfold exported.
  destruct (List.filter (matches start stop) records); reflexivity.
Qed.

Lemma exportName_prefix startDate endDate count :
  String.prefix "export_" (exportName startDate endDate count) = true.
Proof.
  apply String.prefix_correct.
  unfold exportName. destruct (String.eqb endDate ""); sapp;
    cbn [String.length substring]; rewrite substring_none; reflexivity.
Qed.

Lemma prefix_differs name other :
  String.prefix "export_" name = false ->
  String.prefix "export_" other = true ->
  other <> name.
Proof. intros Hn Ho ->. rewrite Hn in Ho. discriminate. Qed.

(** An export leaves every file alone whose name does not begin with
    export_. *)
Lemma filesAfterExport_others store loc startDate endDate w name :
  String.prefix "export_" name = false ->
  filesAfterExport store loc startDate endDate w !! name = files w !! name.
Proof.
  intros Hname. unfold filesAfterExport.
  destruct (selection store loc startDate endDate w) as [|r kept];
    [reflexivity|].
  apply lookup_insert_ne.
  apply (prefix_differs _ _ Hname), exportName_prefix.
Qed.

Lemma selection_store store loc startDate endDate w v :
  files v !! store = files w !! store ->
  selection store loc startDate endDate v
  = selection store loc startDate endDate w.
Proof. intros H. unfold selection. rewrite H. reflexivity. Qed.

(** Exporting from what an export left gives the same files again. *)
Lemma filesAfterExport_twice store loc startDate endDate w v :
  String.prefix "export_" store = false ->
  files v = filesAfterExport store loc startDate endDate w ->
  filesAfterExport store loc startDate endDate v = files v.
Proof.
  intros Hstore Hv.
  assert (Hsel : selection store loc startDate endDate v
                 = selection store loc startDate endDate w).
  { apply selection_store. rewrite Hv.
    apply filesAfterExport_others, Hstore. }
  unfold filesAfterExport at 1. rewrite Hsel, Hv. unfold filesAfterExport.
  destruct (selection store loc startDate endDate w) as [|r kept];
    [reflexivity|].
  apply insert_insert_eq.
Qed.

End OutcomeFacts.

(** ** The daily count, and a store that does not read *)

Module CountFacts.
Import Go GoTime Common StampSpec ScanSpec SessionSpec.
Import StampFacts CsvFacts ExportFacts ScanFacts.

Lemma Atoi_in_int s v : Atoi s = Some v -> in_int v = true.
Proof.
  unfold Atoi.
  destruct (match s with
            | String "-" rest => (true, rest)
            | String "+" rest => (false, rest)
            | _ => (false, s)
            end) as [neg body].
  destruct body as [|c body]; [discriminate|].
  destruct (digitsVal 0 (String c body)) as [n|]; [|discriminate].
  destruct (in_int (if neg then - n else n)) eqn:E; [|discriminate].
  intros H. inversion H; subst. exact E.
Qed.

(** The loop of [getDailyCount] never lets the count go down, and never
    takes it out of the range of [int]. *)
Lemma maxCountOf_range date records : forall acc v,
  0 <= acc <= max_int ->
  Checkin.maxCountOf date records acc = Ok v ->
  acc <= v <= max_int.
Proof.
  induction records as [|r records IH]; intros acc v Hacc H.
  - cbn in H. inversion H; subst. lia.
  - cbn [Checkin.maxCountOf] in H.
    destruct (index r 0) as [ts|]; [|discriminate]. cbn [rbind] in H.
    destruct (slice_to ts 10) as [d|]; [|discriminate]. cbn [rbind] in H.
    destruct (String.eqb d date && (2 <? length r)%nat);
      [|apply (IH _ _ Hacc H)].
    destruct (index r 2) as [seq|]; [|discriminate]. cbn [rbind] in H.
    destruct (Atoi seq) as [count|] eqn:A; [|apply (IH _ _ Hacc H)].
    apply Atoi_in_int in A. unfold in_int in A.
    apply andb_true_iff in A as [_ Hhi]. apply Z.leb_le in Hhi.
    destruct (Z.ltb_spec acc count).
    + apply IH in H; lia.
    + apply IH in H; lia.
Qed.


End CountFacts.

(** ** A store of records as scan mode writes them *)

Module QuietFacts.
Import Go GoTime Common StampSpec ScanSpec SessionSpec.
Import StampFacts CsvFacts ExportFacts ScanFacts.











End QuietFacts.

(** ** The export window of the day of a timestamp *)

Module WindowFacts.
Import Go GoTime Common StampSpec ScanSpec ExportSpec SessionSpec OutcomeSpec.
Import StampFacts CsvFacts ExportFacts ScanFacts.









End WindowFacts.

(** ** Dates on the command line *)

Module DateFacts.
Import Go GoTime Common ExportSpec OutcomeSpec.
Import StampFacts CsvFacts ExportFacts.

Lemma length_substring s : forall n m,
  (n + m <= String.length s)%nat -> String.length (substring n m s) = m.
Proof.
  induction s as [|c s IH]; intros n m H; cbn [String.length] in H.
  - destruct n, m; try lia; reflexivity.
  - destruct n as [|n].
    + destruct m as [|m]; [reflexivity|]. cbn [substring String.length].
      rewrite IH by lia. reflexivity.
    + cbn [substring]. apply IH. lia.
Qed.

Lemma getyear_length s y rest :
  getyear s = Some (y, rest) -> String.length s = (4 + String.length rest)%nat.
Proof.
  unfold getyear.
  destruct (Nat.leb_spec 4 (String.length s)) as [Hlen|]; [|discriminate].
  destruct (digitsVal 0 (substring 0 4 s)); [|discriminate].
  cbn [mbind option_bind]. intros Hy. inversion Hy; subst.
  rewrite length_substring by lia. lia.
Qed.

Lemma lit_length c s rest :
  lit c s = Some rest -> String.length s = S (String.length rest).
Proof.
  destruct s as [|c' s]; cbn [lit]; [discriminate|].
  destruct (Ascii.eqb c c'); [|discriminate].
  intros H. inversion H; subst. reflexivity.
Qed.

Lemma getnum_fixed_length s v rest :
  getnum s true = Some (v, rest) ->
  String.length s = (2 + String.length rest)%nat.
Proof.
  destruct s as [|c0 [|c1 s]]; cbn [getnum]; try discriminate.
  - destruct (isDigit c0); discriminate.
  - destruct (isDigit c0); [|discriminate].
    destruct (isDigit c1); [|discriminate].
    intros H. inversion H; subst. reflexivity.
Qed.

Lemma getdate_length s y m d rest :
  getdate s = Some (y, m, d, rest) ->
  String.length s = (10 + String.length rest)%nat.
Proof.
  unfold getdate.
  destruct (getyear s) as [[y0 s1]|] eqn:Y; [|discriminate].
  cbn [mbind option_bind].
  destruct (lit "-" s1) as [s2|] eqn:L1; [|discriminate].
  cbn [mbind option_bind].
  destruct (getnum s2 true) as [[m0 s3]|] eqn:M; [|discriminate].
  cbn [mbind option_bind].
  destruct ((m0 <=? 0) || (12 <? m0)); [discriminate|].
  destruct (lit "-" s3) as [s4|] eqn:L2; [|discriminate].
  cbn [mbind option_bind].
  destruct (getnum s4 true) as [[d0 s5]|] eqn:D; [|discriminate].
  cbn [mbind option_bind]. intros H. inversion H; subst.
  apply getyear_length in Y. apply lit_length in L1, L2.
  apply getnum_fixed_length in M, D. lia.
Qed.

(** A date given on the command line is accepted only when it is ten
    bytes long. *)
Lemma ParseDateInLocation_length loc s t :
  ParseDateInLocation loc s = Some t -> String.length s = 10%nat.
Proof.
  unfold ParseDateInLocation.
  destruct (getdate s) as [[[[y m] d] rest]|] eqn:G; [|discriminate].
  cbn [mbind option_bind]. destruct rest; [|discriminate].
  intros _. apply getdate_length in G. exact G.
Qed.

Lemma selection_bad_dates store loc startDate endDate w :
  String.length startDate <> 10%nat
  \/ (endDate <> "" /\ String.length endDate <> 10%nat) ->
  selection store loc startDate endDate w = [].
Proof.
  intros Hbad. unfold selection.
  destruct (files w !! store); [|reflexivity].
  destruct (Csv.ReadAll _); [|reflexivity].
  destruct (ParseDateInLocation loc startDate) as [start|] eqn:S; [|reflexivity].
  apply ParseDateInLocation_length in S.
  destruct Hbad as [Hbad|[Hne Hbad]]; [contradiction|].
  unfold windowEnd.
  destruct (String.eqb_spec endDate ""); [contradiction|].
  destruct (ParseDateInLocation loc endDate) as [e|] eqn:E; [|reflexivity].
  apply ParseDateInLocation_length in E. contradiction.
Qed.

End DateFacts.

(** ** What scan mode does to its store *)

Module AppendFacts.
Import Go GoTime Common StampSpec ScanSpec SessionSpec.
Import StampFacts CsvFacts ExportFacts ScanFacts.

(** The loop of checkin.go only ever appends: at most one row for each
    digit-only input before "exit", in the order of the inputs. *)
Lemma scanLoop_appends file inputs : forall st w st' w',
  Checkin.scanLoop file st inputs w = Ok (st', w') ->
  exists accepted seqs,
    sublist accepted (List.filter numeric (untilExit inputs))
    /\ length seqs = length accepted
    /\ content file w' = content file w ++ zip_with checkinRow accepted seqs.
Proof.
  induction inputs as [|inp inputs IH]; intros st w st' w' H.
  - cbn in H. apply Ok_inv in H as [_ <-]. exists [], [].
    cbn. rewrite app_nil_r. split; [constructor|]. auto.
  - cbn [Checkin.scanLoop] in H. cbn [untilExit].
    unfold bind at 1, println, emit in H.
    destruct (String.eqb (barcodeID inp) "exit").
    + revert H. run. intros H. apply Ok_inv in H as [_ <-]. exists [], [].
      cbn. rewrite app_nil_r. split; [constructor|]. auto.
    + unfold bind at 1 in H.
      destruct (Checkin.scanIteration file st inp _) as [[st1 w1]|] eqn:E;
        [|discriminate].
      apply IH in H as (accepted & seqs & Hsub & Hlen & Hc).
      cbn [List.filter]. unfold numeric at 1.
      destruct (scanIteration_pass _ _ _ _ _ _ E)
        as [(Hnum & _ & ->)|(Hnum & evs & _ & [(_ & ->)|(_ & ->)])];
        rewrite Hnum.
      * exists accepted, seqs. rewrite Hc. auto.
      * exists accepted, seqs. rewrite Hc.
        split; [apply sublist_cons, Hsub | auto].
      * exists (inp :: accepted),
          (itoa (Checkin.dailyCount (nextState st (now inp))) :: seqs).
        split; [apply sublist_skip, Hsub|]. split; [cbn; lia|].
        rewrite Hc, content_insert, content_files. cbn [zip_with].
        rewrite <- List.app_assoc. reflexivity.
Qed.

Lemma scanInit_content file start w st w' :
  Checkin.scanInit file start w = Ok (st, w') ->
  content file w' = content file w.
Proof.
  unfold Checkin.scanInit. unfold bind at 1.
  pose proof (content_openOrCreate file file w) as Ho.
  destruct (openOrCreate file w) as [[[] w1]|]; [|contradiction].
  destruct Ho as (Hc & _).
  unfold bind at 1, println, emit. unfold bind at 1.
  destruct (Checkin.getDailyCount _ _ _) as [[c w2]|] eqn:E; [|discriminate].
  apply getDailyCount_files in E. cbn [files] in E.
  unfold ret. intros H. apply Ok_inv in H as [_ <-].
  unfold content in *. rewrite E. exact Hc.
Qed.

Lemma runScanMode_appends start inputs w w' :
  Checkin.runScanMode start inputs w = Ok (tt, w') ->
  exists accepted seqs,
    sublist accepted (List.filter numeric (untilExit inputs))
    /\ length seqs = length accepted
    /\ content Checkin.scanFile w'
       = content Checkin.scanFile w ++ zip_with checkinRow accepted seqs.
Proof.
  unfold Checkin.runScanMode. unfold bind at 1.
  destruct (Checkin.scanInit _ _ w) as [[st0 w0]|] eqn:I; [|discriminate].
  apply scanInit_content in I.
  unfold bind at 1.
  destruct (Checkin.scanLoop _ _ _ w0) as [[st' w3]|] eqn:L; [|discriminate].
  apply scanLoop_appends in L as (accepted & seqs & Hsub & Hlen & Hc).
  unfold ret. intros H. apply Ok_inv in H as [_ <-].
  exists accepted, seqs. rewrite Hc, I. auto.
Qed.

End AppendFacts.

(** ** The properties *)

Section Further.
Import Go GoTime Common StampSpec ScanSpec ExportSpec SessionSpec.
Import OutcomeSpec.
Import StampFacts CsvFacts ExportFacts ScanFacts SessionFacts OutcomeFacts.
Import CountFacts QuietFacts WindowFacts DateFacts AppendFacts.


(** X2. Nothing that is typed after "exit" is read: the scan loop of
    either source file ends at the first "exit", and the inputs behind it
    change nothing. *)
Theorem nothing_after_exit file st before inp after w :
  barcodeID inp = "exit" ->
  Checkin.scanLoop file st (before ++ inp :: after) w
  = Checkin.scanLoop file st (before ++ [inp]) w
  /\ Variant.scanLoop file (before ++ inp :: after) w
     = Variant.scanLoop file (before ++ [inp]) w.
Proof.
  intros Hexit. split.
  - revert st w. induction before as [|i before IH]; intros st w.
    + cbn [app Checkin.scanLoop]. rewrite Hexit. reflexivity.
    + cbn [app Checkin.scanLoop]. run.
      destruct (String.eqb (barcodeID i) "exit"); [reflexivity|].
      destruct (Checkin.scanIteration file st i _) as [[st1 w1]|];
        [apply IH | reflexivity].
  - revert w. induction before as [|i before IH]; intros w.
    + cbn [app Variant.scanLoop]. rewrite Hexit. reflexivity.
    + cbn [app Variant.scanLoop]. run.
      destruct (String.eqb (barcodeID i) "exit"); [reflexivity|].
      destruct (Variant.scanIteration file i _) as [[[] w1]|];
        [apply IH | reflexivity].
Qed.

Lemma nothing_after_exit_witness :
  let file := Checkin.scanFile in
  let st := Checkin.mkLoop "2024-10-26" 0 in
  let before := [Sample.scan "123" "2024-10-26T21:05:00-07:00"] in
  let inp := Sample.scan "exit" "2024-10-26T21:06:00-07:00" in
  let after := [Sample.scan "456" "2024-10-26T21:07:00-07:00"] in
  let w := Sample.noFiles in
  Checkin.scanLoop file st (before ++ inp :: after) w
  = Checkin.scanLoop file st (before ++ [inp]) w
  /\ Variant.scanLoop file (before ++ inp :: after) w
     = Variant.scanLoop file (before ++ [inp]) w.
Proof.
  apply (nothing_after_exit Checkin.scanFile (Checkin.mkLoop "2024-10-26" 0)
           [Sample.scan "123" "2024-10-26T21:05:00-07:00"]
           (Sample.scan "exit" "2024-10-26T21:06:00-07:00")
           [Sample.scan "456" "2024-10-26T21:07:00-07:00"]
           Sample.noFiles).
  reflexivity.
Defined.

(** X3. An input that is neither "exit" nor digits only is turned away
    with a message and the session goes on as if it had not been typed:
    the same records are written and the same state is reached as
    without it, and the output differs by the prompt and the message. *)
Theorem invalid_input_is_skipped file st inp rest w :
  numRegex_MatchString (barcodeID inp) = false ->
  barcodeID inp <> "exit" ->
  let said :=
    [ Printed Prompt;
      Printed (Line "Invalid input. Please enter a numeric barcode ID.") ] in
  Checkin.scanLoop file st (inp :: rest) w
  = match Checkin.scanLoop file st rest w with
    | Ok (st', w') =>
        Ok (st', mkWorld (files w')
                   (trace w ++ said ++ drop (length (trace w)) (trace w')))
    | Panic => Panic
    end
  /\ Variant.scanLoop file (inp :: rest) w
     = match Variant.scanLoop file rest w with
       | Ok (u, w') =>
           Ok (u, mkWorld (files w')
                    (trace w ++ said ++ drop (length (trace w)) (trace w')))
       | Panic => Panic
       end.
Proof.
  intros Hnum Hexit said.
  assert (Hne : String.eqb (barcodeID inp) "exit" = false)
    by (apply String.eqb_neq; exact Hexit).
  destruct w as [fs tr]. cbn [files trace]. split.
  - cbn [Checkin.scanLoop]. rewrite Hne. unfold Checkin.scanIteration.
    rewrite Hnum. cbn [negb]. run.
    rewrite (traceBlind_from_empty (Checkin.scanLoop file st rest) fs tr)
      by apply traceBlind_scanLoop.
    rewrite (traceBlind_from_empty (Checkin.scanLoop file st rest) fs
               ((tr ++ _) ++ _)) by apply traceBlind_scanLoop.
    destruct (Checkin.scanLoop file st rest (mkWorld fs [])) as [[st' w0]|];
      [|reflexivity].
    cbn [later files trace]. rewrite drop_app_length.
    rewrite !app_assoc3. reflexivity.
  - cbn [Variant.scanLoop]. rewrite Hne. unfold Variant.scanIteration.
    rewrite Hnum. cbn [negb]. run.
    rewrite (traceBlind_from_empty (Variant.scanLoop file rest) fs tr)
      by apply traceBlind_variant_scanLoop.
    rewrite (traceBlind_from_empty (Variant.scanLoop file rest) fs
               ((tr ++ _) ++ _)) by apply traceBlind_variant_scanLoop.
    destruct (Variant.scanLoop file rest (mkWorld fs [])) as [[u w0]|];
      [|reflexivity].
    cbn [later files trace]. rewrite drop_app_length.
    rewrite !app_assoc3. reflexivity.
Qed.

Lemma invalid_input_is_skipped_witness :
  let file := Checkin.scanFile in
  let st := Checkin.mkLoop "2024-10-26" 2 in
  let inp := Sample.scan "abc123" "2024-10-26T21:05:00-07:00" in
  let rest := [ Sample.scan "333" "2024-10-26T21:06:00-07:00" ] in
  let w := Sample.storeOf Checkin.scanFile Sample.evening in
  let said :=
    [ Printed Prompt;
      Printed (Line "Invalid input. Please enter a numeric barcode ID.") ] in
  Checkin.scanLoop file st (inp :: rest) w
  = match Checkin.scanLoop file st rest w with
    | Ok (st', w') =>
        Ok (st', mkWorld (files w')
                   (trace w ++ said ++ drop (length (trace w)) (trace w')))
    | Panic => Panic
    end
  /\ Variant.scanLoop file (inp :: rest) w
     = match Variant.scanLoop file rest w with
       | Ok (u, w') =>
           Ok (u, mkWorld (files w')
                    (trace w ++ said ++ drop (length (trace w)) (trace w')))
       | Panic => Panic
       end.
Proof.
  apply (invalid_input_is_skipped Checkin.scanFile
           (Checkin.mkLoop "2024-10-26" 2)
           (Sample.scan "abc123" "2024-10-26T21:05:00-07:00")
           [ Sample.scan "333" "2024-10-26T21:06:00-07:00" ]
           (Sample.storeOf Checkin.scanFile Sample.evening));
    [ vm_compute; reflexivity | vm_compute; discriminate ].
Defined.

(** X4. Scan mode of the second source file never fails and records
    every digit-only input up to the first "exit", repeats included, in
    the order typed, as a row of timestamp and barcode behind what the
    store held; no other file is touched. *)
Theorem variant_records_every_numeric_input inputs w :
  exists w',
    Variant.runScanMode inputs w = Ok (tt, w')
    /\ content Variant.scanFile w'
       = content Variant.scanFile w
         ++ map variantRow (List.filter numeric (untilExit inputs))
    /\ forall name, name <> Variant.scanFile ->
         files w' !! name = files w !! name.
Proof. apply variant_runScanMode_run. Qed.

(** X5. Export mode of either source file never fails, whatever the
    files hold and whatever dates are given, and it writes the records it
    selects or nothing: when the store is missing or does not read as
    CSV, when a date does not parse, or when no record matches, the files
    are left as they were; otherwise the one file named after the dates
    and the count holds the selected records. *)
Theorem export_writes_selection_or_nothing loc startDate endDate w :
  (exists w',
     Checkin.runExportMode loc startDate endDate w = Ok (tt, w')
     /\ files w'
        = filesAfterExport Checkin.exportFile loc startDate endDate w)
  /\ (exists w',
       Variant.runExportMode loc startDate endDate w = Ok (tt, w')
       /\ files w'
          = filesAfterExport Variant.exportFile loc startDate endDate w).
Proof. split; apply runExportModeOn_files. Qed.

(** X6. An export changes no file but one whose name begins with
    export_: the store it reads and the store scan mode writes are left
    as they were. *)
Theorem export_leaves_the_stores_alone loc startDate endDate w :
  let after := worldOf (Checkin.runExportMode loc startDate endDate w) in
  let after' := worldOf (Variant.runExportMode loc startDate endDate w) in
  (forall name, String.prefix "export_" name = false ->
     files after !! name = files w !! name
     /\ files after' !! name = files w !! name)
  /\ files after !! Checkin.exportFile = files w !! Checkin.exportFile
  /\ files after !! Checkin.scanFile = files w !! Checkin.scanFile
  /\ files after' !! Variant.scanFile = files w !! Variant.scanFile.
Proof.
  cbv zeta.
  destruct (runExportModeOn_files Checkin.exportFile loc startDate endDate w)
    as (w1 & Hrun1 & Hf1).
  destruct (runExportModeOn_files Variant.exportFile loc startDate endDate w)
    as (w2 & Hrun2 & Hf2).
  unfold Checkin.runExportMode, Variant.runExportMode.
  rewrite Hrun1, Hrun2. cbn [worldOf]. rewrite Hf1, Hf2.
  split; [|split; [|split]];
    try (apply filesAfterExport_others; reflexivity).
  intros name Hname. split; apply filesAfterExport_others, Hname.
Qed.

(** X7. Exporting twice with the same dates leaves the same files as
    exporting once: the second run reads the same store, selects the same
    records and overwrites the file of the first run with what it
    held. *)
Theorem export_twice_is_export_once loc startDate endDate w :
  let once := worldOf (Checkin.runExportMode loc startDate endDate w) in
  let once' := worldOf (Variant.runExportMode loc startDate endDate w) in
  files (worldOf (Checkin.runExportMode loc startDate endDate once))
  = files once
  /\ files (worldOf (Variant.runExportMode loc startDate endDate once'))
     = files once'.
Proof.
  cbv zeta. unfold Checkin.runExportMode, Variant.runExportMode. split.
  - destruct (runExportModeOn_files Checkin.exportFile loc startDate endDate w)
      as (w1 & -> & Hf1). cbn [worldOf].
    destruct (runExportModeOn_files Checkin.exportFile loc startDate endDate w1)
      as (w2 & -> & Hf2). cbn [worldOf]. rewrite Hf2.
    apply (filesAfterExport_twice _ _ _ _ w); [reflexivity | exact Hf1].
  - destruct (runExportModeOn_files Variant.exportFile loc startDate endDate w)
      as (w1 & -> & Hf1). cbn [worldOf].
    destruct (runExportModeOn_files Variant.exportFile loc startDate endDate w1)
      as (w2 & -> & Hf2). cbn [worldOf]. rewrite Hf2.
    apply (filesAfterExport_twice _ _ _ _ w); [reflexivity | exact Hf1].
Qed.


(** X9. The daily count read from the store is never negative and never
    beyond the largest [int], whatever the store holds: sequence fields
    that are negative, out of range or no numbers do not count. Reading
    it changes no file. *)
Theorem daily_count_is_in_range file date w n w' :
  Checkin.getDailyCount file date w = Ok (n, w') ->
  0 <= n <= max_int /\ files w' = files w.
Proof.
  intros H. split; [|apply (getDailyCount_files _ _ _ _ _ H)].
  revert H. unfold Checkin.getDailyCount. unfold bind at 1, readAll.
  destruct (Csv.ReadAll (content file w)) as [records|].
  - unfold lift.
    destruct (Checkin.maxCountOf date records 0) as [v|] eqn:E; [|discriminate].
    intros H. apply Ok_inv in H as [<- _].
    apply maxCountOf_range in E; unfold max_int in *; lia.
  - run. intros H. apply Ok_inv in H as [<- _]. unfold max_int. lia.
Qed.

Lemma daily_count_is_in_range_witness :
  let w := Sample.storeOf Checkin.scanFile
             [ Csv.Row "2024-10-26T20:00:00-07:00" ["111"; "-5"];
               Csv.Row "2024-10-26T20:10:00-07:00" ["222"; "99999999999999999999"];
               Csv.Row "2024-10-26T20:20:00-07:00" ["333"; "3"] ] in
  let w' := worldOf (Checkin.getDailyCount Checkin.scanFile "2024-10-26" w) in
  0 <= 3 <= max_int /\ files w' = files w.
Proof.
  apply (daily_count_is_in_range Checkin.scanFile "2024-10-26"
           (Sample.storeOf Checkin.scanFile
              [ Csv.Row "2024-10-26T20:00:00-07:00" ["111"; "-5"];
                Csv.Row "2024-10-26T20:10:00-07:00" ["222"; "99999999999999999999"];
                Csv.Row "2024-10-26T20:20:00-07:00" ["333"; "3"] ])
           3).
  vm_compute. reflexivity.
Defined.

(** X10. On a store that reads as CSV the daily count panics exactly
    when some row, of whatever date, has a first field shorter than ten
    bytes; scan mode then cannot be started at all. *)
Theorem short_first_field_stops_scan_mode w records date :
  Csv.ReadAll (content Checkin.scanFile w) = Some records ->
  (Checkin.getDailyCount Checkin.scanFile date w = Panic
   <-> forallb hasDate records = false)
  /\ (forallb hasDate records = false ->
      forall start inputs, Checkin.runScanMode start inputs w = Panic).
Proof.
  intros Hr.
  assert (Hcount : forall d v,
             content Checkin.scanFile v = content Checkin.scanFile w ->
             Checkin.getDailyCount Checkin.scanFile d v = Panic
             <-> forallb hasDate records = false).
  { intros d v Hc. unfold Checkin.getDailyCount. unfold bind at 1, readAll.
    rewrite Hc, Hr. unfold lift.
    pose proof (maxCountOf_panics d records (ReadAll_nonempty _ _ Hr) 0) as P.
    destruct (Checkin.maxCountOf d records 0); split; intros H.
    - discriminate.
    - apply P in H. discriminate.
    - apply P. reflexivity.
    - reflexivity. }
  split; [apply Hcount; reflexivity|].
  intros Hshort start inputs.
  unfold Checkin.runScanMode, Checkin.scanInit. unfold bind at 1 2.
  pose proof (content_openOrCreate Checkin.scanFile Checkin.scanFile w) as Ho.
  destruct (openOrCreate Checkin.scanFile w) as [[[] w1]|]; [|contradiction].
  destruct Ho as (Hc & _).
  unfold bind at 1, println, emit. unfold bind at 1.
  match goal with
  | |- context [Checkin.getDailyCount _ _ ?wx] =>
      rewrite (proj2 (Hcount (formatDate start) wx Hc) Hshort)
  end.
  reflexivity.
Qed.

Lemma short_first_field_stops_scan_mode_witness :
  let w := Sample.storeOf Checkin.scanFile
             [ Csv.Row "2024-10-26T20:00:00-07:00" ["111"; "1"];
               Csv.Row "garbled" ["33"; "2"] ] in
  let records := [ ["2024-10-26T20:00:00-07:00"; "111"; "1"];
                   ["garbled"; "33"; "2"] ] in
  (Checkin.getDailyCount Checkin.scanFile "2031-01-01" w = Panic
   <-> forallb hasDate records = false)
  /\ (forallb hasDate records = false ->
      forall start inputs, Checkin.runScanMode start inputs w = Panic).
Proof.
  apply (short_first_field_stops_scan_mode
           (Sample.storeOf Checkin.scanFile
              [ Csv.Row "2024-10-26T20:00:00-07:00" ["111"; "1"];
                Csv.Row "garbled" ["33"; "2"] ])
           [ ["2024-10-26T20:00:00-07:00"; "111"; "1"];
             ["garbled"; "33"; "2"] ]
           "2031-01-01").
  vm_compute. reflexivity.
Defined.







(** X14. A date on the command line is taken only when it is exactly
    ten bytes long: with a start date of another length, or an end date
    that is given and of another length, the export of either source
    file writes nothing. *)
Theorem export_dates_have_ten_bytes loc startDate endDate w :
  String.length startDate <> 10%nat
  \/ (endDate <> "" /\ String.length endDate <> 10%nat) ->
  (exists w',
     Checkin.runExportMode loc startDate endDate w = Ok (tt, w')
     /\ files w' = files w)
  /\ (exists w',
       Variant.runExportMode loc startDate endDate w = Ok (tt, w')
       /\ files w' = files w).
Proof.
  intros Hbad. unfold Checkin.runExportMode, Variant.runExportMode.
  split.
  - destruct (runExportModeOn_files Checkin.exportFile loc startDate endDate w)
      as (w' & Hrun & Hfiles).
    exists w'. split; [exact Hrun|]. rewrite Hfiles. unfold filesAfterExport.
    rewrite (selection_bad_dates _ _ _ _ _ Hbad). reflexivity.
  - destruct (runExportModeOn_files Variant.exportFile loc startDate endDate w)
      as (w' & Hrun & Hfiles).
    exists w'. split; [exact Hrun|]. rewrite Hfiles. unfold filesAfterExport.
    rewrite (selection_bad_dates _ _ _ _ _ Hbad). reflexivity.
Qed.

Lemma export_dates_have_ten_bytes_witness :
  let w := Sample.storeOf Variant.exportFile Sample.fourDays in
  (exists w',
     Checkin.runExportMode Sample.zone "2024-10-5" "" w = Ok (tt, w')
     /\ files w' = files w)
  /\ (exists w',
       Variant.runExportMode Sample.zone "2024-10-5" "" w = Ok (tt, w')
       /\ files w' = files w).
Proof.
  apply (export_dates_have_ten_bytes Sample.zone "2024-10-5" ""
           (Sample.storeOf Variant.exportFile Sample.fourDays)).
  left. vm_compute. discriminate.
Defined.

(** X15. Scan mode of checkin.go only ever appends to its store: what
    the store held stays in front unchanged, and behind it comes at most
    one row of three fields for each digit-only input before "exit", in
    the order typed, with the timestamp and the barcode of that input. *)
Theorem scan_mode_only_appends start inputs w w' :
  Checkin.runScanMode start inputs w = Ok (tt, w') ->
  exists accepted seqs,
    sublist accepted (List.filter numeric (untilExit inputs))
    /\ length seqs = length accepted
    /\ content Checkin.scanFile w'
       = content Checkin.scanFile w ++ zip_with checkinRow accepted seqs.
Proof. apply runScanMode_appends. Qed.

Lemma scan_mode_only_appends_witness :
  let start := Sample.at_ "2024-10-26T21:00:00-07:00" in
  let inputs := [ Sample.scan "333" "2024-10-26T21:05:00-07:00";
                  Sample.scan "111" "2024-10-26T21:07:00-07:00";
                  Sample.scan "exit" "2024-10-26T21:08:00-07:00";
                  Sample.scan "444" "2024-10-26T21:09:00-07:00" ] in
  let w := Sample.storeOf Checkin.scanFile Sample.evening in
  let w' := worldOf (Checkin.runScanMode start inputs w) in
  exists accepted seqs,
    sublist accepted (List.filter numeric (untilExit inputs))
    /\ length seqs = length accepted
    /\ content Checkin.scanFile w'
       = content Checkin.scanFile w ++ zip_with checkinRow accepted seqs.
Proof.
  apply (scan_mode_only_appends
           (Sample.at_ "2024-10-26T21:00:00-07:00")
           [ Sample.scan "333" "2024-10-26T21:05:00-07:00";
             Sample.scan "111" "2024-10-26T21:07:00-07:00";
             Sample.scan "exit" "2024-10-26T21:08:00-07:00";
             Sample.scan "444" "2024-10-26T21:09:00-07:00" ]
           (Sample.storeOf Checkin.scanFile Sample.evening)).
  vm_compute. reflexivity.
Defined.

End Further.
